(** * ml_edm: checkpoint scheduling, length grouping and early-decision scoring

  A shallow embedding of
    - [src/ml_edm/classification/_base.py]  (class [BaseTimeClassifier])
    - [src/ml_edm/early_classifier.py]      (class [EarlyClassifier])
  Python integers are [Z]; Python/numpy floats that only enter through
  ratios and costs are exact rationals [Q]; a float that may be the
  not-a-number value carries an explicit [FNaN] constructor. *)

From Stdlib Require Import ZArith QArith Qround.
From stdpp Require Import base option list list_numbers sorting gmap.

(** ** Python and numpy primitives used by the two source files *)
Module Py.

(** Exceptions raised by the modelled code. *)
Inductive exn : Set :=
| TypeError
| ValueError
| IndexError
| KeyError
| AttributeError
| RecursionError.

(** The messages passed to [warnings.warn]. *)
Inductive warning : Set :=
| WarnNoMinLength        (* "No min_length procided, using a minimum length of 1 by default" *)
| WarnDuplicates         (* "Removed duplicates in argument 'timestamps'." *)
| WarnBothDefined        (* "Both 'timestamps' and 'sampling_ratio' are defined, ..." *)
| WarnDefaultSampling    (* "No 'sampling_ratio' or pre-defined list of 'timestamps' provided, ..." *)
| WarnTruncated.         (* "Some time series were truncated during prediction ..." *)

(** A method call on an object of state [S]: it ends with a value or an
    exception, leaves the object in some state, and has emitted warnings.
    An exception does not roll the state back. *)
Record outcome (St A : Type) : Type := Outcome {
  result : exn + A;
  final : St;
  emitted : list warning
}.
Arguments Outcome {St A} _ _ _.
Arguments result {St A} _.
Arguments final {St A} _.
Arguments emitted {St A} _.

Definition M (St A : Type) : Type := St → outcome St A.

Definition ret {St A} (a : A) : M St A := λ s, Outcome (inr a) s [].

Definition bind {St A B} (m : M St A) (k : A → M St B) : M St B := λ s,
  let o := m s in
  match result o with
  | inl e => Outcome (inl e) (final o) (emitted o)
  | inr a =>
      let o' := k a (final o) in
      Outcome (result o') (final o') (emitted o ++ emitted o')
  end.

Definition raise {St A} (e : exn) : M St A := λ s, Outcome (inl e) s [].
Definition warn {St} (w : warning) : M St unit := λ s, Outcome (inr ()) s [w].
Definition get {St} : M St St := λ s, Outcome (inr s) s [].
Definition modify {St} (f : St → St) : M St unit := λ s, Outcome (inr ()) (f s) [].

(** A float that may be NaN. *)
Inductive pyfloat (A : Type) : Type :=
| FNum (a : A)
| FNaN.
Arguments FNum {A} _.
Arguments FNaN {A}.

(** [int(x)] on an exact quotient: truncation toward zero. *)
Definition py_int (x : Q) : Z := Z.quot (Qnum x) (Zpos (Qden x)).

(** [np.sort] on an integer array. *)
Definition np_sort (a : list Z) : list Z := merge_sort Z.le a.

(** [list(set(l))]: the distinct elements of [l]. Python fixes no iteration
    order for a set; every use below sorts the result. *)
Definition py_set (a : list Z) : list Z := remove_dups a.

(** [np.unique]: the sorted distinct elements. *)
Definition np_unique (a : list Z) : list Z := np_sort (remove_dups a).

(** [range(a, b)]. *)
Definition py_range (a b : Z) : list Z := seqZ a (b - a).

(** [np.sum(y == c)]. *)
Definition count_eq (c : Z) (y : list Z) : Z :=
  Z.of_nat (length (filter (λ v, v = c) y)).

(** [np.argmax] on a float vector: the first position of a NaN when there is
    one (NaN propagates through the maximum), otherwise the first position
    of the greatest entry; 0 on an empty suffix. *)
Fixpoint argmax_from (best : pyfloat Q) (besti i : nat) (v : list (pyfloat Q)) : nat :=
  match v with
  | [] => besti
  | x :: v' =>
      match best, x with
      | FNaN, _ => besti
      | FNum _, FNaN => i
      | FNum b, FNum q =>
          if Qlt_le_dec b q then argmax_from x i (S i) v'
          else argmax_from best besti (S i) v'
      end
  end.

Definition np_argmax (v : list (pyfloat Q)) : nat :=
  match v with
  | [] => 0%nat
  | x :: v' => argmax_from x 0%nat 1%nat v'
  end.

(** [np.argmin] on a NaN-free vector: the first position of the least
    entry; [None] on an empty vector, where numpy raises. *)
Fixpoint argmin_from (best : Q) (besti i : nat) (v : list Q) : nat :=
  match v with
  | [] => besti
  | x :: v' =>
      if Qlt_le_dec x best then argmin_from x i (S i) v'
      else argmin_from best besti (S i) v'
  end.

Definition np_argmin (v : list Q) : option nat :=
  match v with
  | [] => None
  | x :: v' => Some (argmin_from x 0%nat 1%nat v')
  end.

(** [np.sum] and [np.mean] over rationals. *)
Definition np_sum (v : list Q) : Q := foldr Qplus 0%Q v.
Definition np_mean (v : list Q) : Q := (np_sum v / inject_Z (Z.of_nat (length v)))%Q.

End Py.

Notation "x <- m ;; k" := (Py.bind m (λ x, k))
(at level 100, m at next level, k at level 200, right associativity, only parsing).
Notation "m ;;; k" := (Py.bind m (λ _, k))
(at level 100, k at level 200, right associativity, only parsing).

(** ** [classification/_base.py]: the length-indexed classifier ensemble *)
Module Base.
Import Py.
Local Open Scope Z_scope.

(** One time series: its measurements, possibly NaN. *)
Definition series : Type := list (pyfloat Q).

(** [X.shape[1]] of a rectangular dataset and the column slice [X[:, :l]]. *)
Definition shape1 (X : list series) : Z := Z.of_nat (length (hd [] X)).

(** [s[:n]] with Python's reading of a negative bound. *)
Definition py_slice_to {A} (s : list A) (n : Z) : list A :=
  if 0 <=? n then take (Z.to_nat n) s
  else take (Z.to_nat (Z.of_nat (length s) + n)) s.

Definition columns_to (X : list series) (l : Z) : list series :=
  map (λ s, py_slice_to s l) X.

(** An item of a Python list given as [timestamps]: an integer or not. *)
Inductive pyitem : Type :=
| ItemInt (z : Z)
| ItemOther.

(** A numpy array as far as [fit] inspects it: its elements are all
    [np.int32]/[np.int64] scalars, or none of them is (one dtype per
    array); in the second case only the number of elements matters. *)
Inductive ndarray : Type :=
| IntArray (a : list Z)
| OtherArray (n : nat).

Definition arr_len (a : ndarray) : nat :=
  match a with IntArray zs => length zs | OtherArray n => n end.

Fixpoint ints_of_items (l : list pyitem) : option (list Z) :=
  match l with
  | [] => Some []
  | ItemInt z :: r => (z ::.) <$> ints_of_items r
  | ItemOther :: _ => None
  end.

(** [np.array(l)]: an integer array exactly when every item is an integer. *)
Definition np_array (l : list pyitem) : ndarray :=
  match ints_of_items l with
  | Some zs => IntArray zs
  | None => OtherArray (length l)
  end.

Definition arr_unique (a : ndarray) : ndarray :=
  match a with IntArray zs => IntArray (np_unique zs) | OtherArray n => OtherArray n end.

Definition arr_sort (a : ndarray) : ndarray :=
  match a with IntArray zs => IntArray (np_sort zs) | OtherArray n => OtherArray n end.

(** The value held by the attribute [timestamps]. *)
Inductive timestamps_value : Type :=
| TsNone
| TsList (l : list pyitem)
| TsArray (a : ndarray)
| TsOther.

(** The value held by the attribute [sampling_ratio]. *)
Inductive ratio_value : Type :=
| SrNone
| SrFloat (q : Q)
| SrInt (z : Z)
| SrOther.

(** A fitted per-length classifier maps a series to class probabilities;
    a learner trains one from a dataset ([base_classifier], external). *)
Definition Classifier : Type := series → list (pyfloat Q).
Definition Learner : Type := list series → list Z → Classifier.

Record BaseTimeClassifier : Type := {
  timestamps : timestamps_value;
  sampling_ratio : ratio_value;
  min_length : option Z;
  max_length : option Z;
  classes_ : option (list Z);
  class_prior : option (list Q);
  nb_classifiers : option Z;
  base_classifier : Learner;
  classifiers : option (list Classifier)
}.

Definition set_timestamps v (o : BaseTimeClassifier) :=
  {| timestamps := v; sampling_ratio := sampling_ratio o; min_length := min_length o;
     max_length := max_length o; classes_ := classes_ o; class_prior := class_prior o;
     nb_classifiers := nb_classifiers o; base_classifier := base_classifier o;
     classifiers := classifiers o |}.
Definition set_sampling_ratio v (o : BaseTimeClassifier) :=
  {| timestamps := timestamps o; sampling_ratio := v; min_length := min_length o;
     max_length := max_length o; classes_ := classes_ o; class_prior := class_prior o;
     nb_classifiers := nb_classifiers o; base_classifier := base_classifier o;
     classifiers := classifiers o |}.
Definition set_min_length v (o : BaseTimeClassifier) :=
  {| timestamps := timestamps o; sampling_ratio := sampling_ratio o; min_length := v;
     max_length := max_length o; classes_ := classes_ o; class_prior := class_prior o;
     nb_classifiers := nb_classifiers o; base_classifier := base_classifier o;
     classifiers := classifiers o |}.
Definition set_max_length v (o : BaseTimeClassifier) :=
  {| timestamps := timestamps o; sampling_ratio := sampling_ratio o; min_length := min_length o;
     max_length := v; classes_ := classes_ o; class_prior := class_prior o;
     nb_classifiers := nb_classifiers o; base_classifier := base_classifier o;
     classifiers := classifiers o |}.
Definition set_classes_ v (o : BaseTimeClassifier) :=
  {| timestamps := timestamps o; sampling_ratio := sampling_ratio o; min_length := min_length o;
     max_length := max_length o; classes_ := v; class_prior := class_prior o;
     nb_classifiers := nb_classifiers o; base_classifier := base_classifier o;
     classifiers := classifiers o |}.
Definition set_class_prior v (o : BaseTimeClassifier) :=
  {| timestamps := timestamps o; sampling_ratio := sampling_ratio o; min_length := min_length o;
     max_length := max_length o; classes_ := classes_ o; class_prior := v;
     nb_classifiers := nb_classifiers o; base_classifier := base_classifier o;
     classifiers := classifiers o |}.
Definition set_nb_classifiers v (o : BaseTimeClassifier) :=
  {| timestamps := timestamps o; sampling_ratio := sampling_ratio o; min_length := min_length o;
     max_length := max_length o; classes_ := classes_ o; class_prior := class_prior o;
     nb_classifiers := v; base_classifier := base_classifier o;
     classifiers := classifiers o |}.
Definition set_classifiers v (o : BaseTimeClassifier) :=
  {| timestamps := timestamps o; sampling_ratio := sampling_ratio o; min_length := min_length o;
     max_length := max_length o; classes_ := classes_ o; class_prior := class_prior o;
     nb_classifiers := nb_classifiers o; base_classifier := base_classifier o;
     classifiers := v |}.

(** [BaseTimeClassifier.__init__] (the attribute [nb_classifiers] does not
    exist yet; [base_classifier] and [classifiers] belong to the concrete
    subclass). *)
Definition __init__ (ts : timestamps_value) (sr : ratio_value) (minl : option Z)
    (learner : Learner) : BaseTimeClassifier :=
  {| timestamps := ts; sampling_ratio := sr; min_length := minl; max_length := None;
     classes_ := None; class_prior := None; nb_classifiers := None;
     base_classifier := learner; classifiers := None |}.

(** Reading an attribute that must hold an integer: arithmetic on [None]
    is a [TypeError]. *)
Definition int_attr {St : Type} (v : option Z) : M St Z :=
  match v with Some z => ret z | None => raise TypeError end.

(** The checkpoints of a fitted ensemble, as a list. *)
Definition checkpoints (o : BaseTimeClassifier) : list Z :=
  match timestamps o with
  | TsArray (IntArray zs) => zs
  | _ => []
  end.

(** [fit], lines 50-54: the loop over the elements of [timestamps]. *)
Fixpoint check_ints {St : Type} (zs : list Z) : M St unit :=
  match zs with
  | [] => ret ()
  | t :: r => if t <? 0 then raise ValueError else check_ints r
  end.

Definition check_elements {St : Type} (a : ndarray) : M St unit :=
  match a with
  | IntArray zs => check_ints zs
  | OtherArray O => ret ()
  | OtherArray (S _) => raise TypeError
  end.

(** [fit], lines 43-63: an explicit [timestamps] argument. *)
Definition check_timestamps (ts : timestamps_value) : M BaseTimeClassifier unit :=
  a <- match ts with
       | TsList l => modify (set_timestamps (TsArray (np_array l))) ;;; ret (np_array l)
       | TsArray a => ret a
       | _ => raise TypeError
       end ;;
  (if decide (arr_len a = 0%nat) then raise ValueError else ret ()) ;;;
  check_elements a ;;;
  (if decide (arr_len (arr_unique a) ≠ arr_len a)
   then modify (set_timestamps (TsArray (arr_unique a))) ;;; warn WarnDuplicates
   else ret ()) ;;;
  self <- get ;;
  match sampling_ratio self with
  | SrNone => ret ()
  | _ => warn WarnBothDefined ;;; modify (set_sampling_ratio SrNone)
  end.

(** The number denoted by a [float] or [int] ratio. *)
Definition ratio_number (sr : ratio_value) : option Q :=
  match sr with
  | SrFloat q => Some q
  | SrInt z => Some (inject_Z z)
  | _ => None
  end.

(** [fit], lines 65-74: a sampling ratio and no timestamps. The quotient
    [1/ratio] is taken exactly. *)
Definition check_sampling_ratio (sr : ratio_value) : M BaseTimeClassifier unit :=
  match ratio_number sr with
  | None => raise TypeError
  | Some q =>
      if Qle_bool q 0 || negb (Qle_bool q 1) then raise ValueError
      else
        self <- get ;;
        maxl <- int_attr (max_length self) ;;
        minl <- int_attr (min_length self) ;;
        modify (set_nb_classifiers (Some (Z.min (py_int (1 / q)) (maxl - minl + 1))))
  end.

(** [fit], lines 81-88: checkpoints derived from the classifier count. The
    quotient [(max_length - min_length) * i / nb_classifiers] is taken
    exactly before [int] truncates it. *)
Definition derived_lengths (maxl minl nb : Z) : list Z :=
  map (λ i, Z.quot ((maxl - minl) * i) nb + minl) (py_range 1 (nb + 1)).

Definition derive_timestamps : M BaseTimeClassifier unit :=
  self <- get ;;
  match timestamps self with
  | TsNone =>
      nb <- int_attr (nb_classifiers self) ;;
      maxl <- int_attr (max_length self) ;;
      minl <- int_attr (min_length self) ;;
      let ts := py_set (derived_lengths maxl minl nb) in
      modify (set_timestamps (TsArray (IntArray ts))) ;;;
      modify (set_nb_classifiers (Some (Z.of_nat (length ts))))
  | _ => ret ()
  end.

(** [fit], line 91. *)
Definition sort_timestamps : M BaseTimeClassifier unit :=
  self <- get ;;
  match timestamps self with
  | TsArray a => modify (set_timestamps (TsArray (arr_sort a)))
  | TsList l => modify (set_timestamps (TsArray (arr_sort (np_array l))))
  | _ => raise TypeError
  end.

(** Modelled from the spec: the abstract hook [_fit], whose implementations
    are outside the two source files. Spec 4.2: it "trains one classifier per
    checkpoint on X truncated to that checkpoint length". *)
Definition _fit (X : list series) (y : list Z) : M BaseTimeClassifier unit :=
  self <- get ;;
  modify (set_classifiers
    (Some (map (λ l, base_classifier self (columns_to X l) y) (checkpoints self)))).

(** [BaseTimeClassifier.fit(X, y)]. [check_X_y] is an external validator and
    is taken to have accepted [(X, y)]. *)
Definition fit (X : list series) (y : list Z) : M BaseTimeClassifier unit :=
  modify (set_max_length (Some (shape1 X))) ;;;
  self <- get ;;
  match min_length self with
  | None => warn WarnNoMinLength ;;; modify (set_min_length (Some 1))
  | Some _ => ret ()
  end ;;;
  modify (set_classes_ (Some (np_unique y))) ;;;
  modify (set_class_prior
    (Some (map (λ c, (inject_Z (count_eq c y) / inject_Z (Z.of_nat (length y)))%Q)
               (np_unique y)))) ;;;
  self <- get ;;
  match timestamps self with
  | TsNone =>
      match sampling_ratio self with
      | SrNone => warn WarnDefaultSampling ;;; modify (set_nb_classifiers (Some 20))
      | sr => check_sampling_ratio sr
      end
  | ts => check_timestamps ts
  end ;;;
  derive_timestamps ;;;
  sort_timestamps ;;;
  _fit X y.

(** [fit], lines 33-91: what [fit] does before it calls the hook [_fit] at
    line 93. *)
Definition fit_schedule (X : list series) (y : list Z) : M BaseTimeClassifier unit :=
  modify (set_max_length (Some (shape1 X))) ;;;
  self <- get ;;
  match min_length self with
  | None => warn WarnNoMinLength ;;; modify (set_min_length (Some 1))
  | Some _ => ret ()
  end ;;;
  modify (set_classes_ (Some (np_unique y))) ;;;
  modify (set_class_prior
    (Some (map (λ c, (inject_Z (count_eq c y) / inject_Z (Z.of_nat (length y)))%Q)
               (np_unique y)))) ;;;
  self <- get ;;
  match timestamps self with
  | TsNone =>
      match sampling_ratio self with
      | SrNone => warn WarnDefaultSampling ;;; modify (set_nb_classifiers (Some 20))
      | sr => check_sampling_ratio sr
      end
  | ts => check_timestamps ts
  end ;;;
  derive_timestamps ;;;
  sort_timestamps.

(** The integer array a fitted ensemble holds in [timestamps]; any other
    value makes the membership test of [_grouped_by_length] a [TypeError]. *)
Definition timestamps_array {St : Type} (v : timestamps_value) : M St (list Z) :=
  match v with
  | TsArray (IntArray zs) => ret zs
  | _ => raise TypeError
  end.

(** [min(l, key=key, default=None)]: the first element of least key. *)
Definition py_min_key {A} (key : A → Z) (l : list A) : option A :=
  match l with
  | [] => None
  | x :: r => Some (foldl (λ best v, if key v <? key best then v else best) x r)
  end.

(** The dictionary [grouped_X]: keys are lengths, or [None] when [min] fell
    back to its default. *)
Abbreviation groups := (gmap (option Z) (list series)).

(** [_grouped_by_length], lines 146-149. *)
Definition add_to_group (length : option Z) (serie : series) (grouped_X : groups) : groups :=
  match grouped_X !! length with
  | Some g => <[length := g ++ [serie]]> grouped_X
  | None => <[length := [serie]]> grouped_X
  end.

(** [_grouped_by_length], lines 136-149: one turn of the loop over [X],
    on the local variables [truncated] and [grouped_X]. *)
Definition group_serie {St : Type} (ts : list Z) (serie : series) (loc : bool * groups)
    : M St (bool * groups) :=
  let '(truncated, grouped_X) := loc in
  let length := Z.of_nat (length serie) in
  enter <- (if decide (length ∈ ts) then ret false
            else match ts !! 0%nat with
                 | Some t0 => ret (bool_decide (t0 < length))
                 | None => raise IndexError
                 end) ;;
  if enter : bool then
    let filtered := filter (λ x, x ≤ length) ts in
    match py_min_key (λ x, length - x) filtered with
    | Some length' =>
        if decide (length' ≠ 0)
        then ret (true, add_to_group (Some length') (py_slice_to serie length') grouped_X)
        else ret (truncated, add_to_group (Some length') serie grouped_X)
    | None => ret (truncated, add_to_group None serie grouped_X)
    end
  else ret (truncated, add_to_group (Some length) serie grouped_X).

Fixpoint group_loop {St : Type} (ts : list Z) (X : list series) (loc : bool * groups)
    : M St (bool * groups) :=
  match X with
  | [] => ret loc
  | serie :: X' => loc' <- group_serie ts serie loc ;; group_loop ts X' loc'
  end.

(** [BaseTimeClassifier._grouped_by_length(X)]. *)
Definition _grouped_by_length (X : list series) : M BaseTimeClassifier groups :=
  self <- get ;;
  ts <- timestamps_array (timestamps self) ;;
  loc <- group_loop ts X (false, ∅) ;;
  (if fst loc : bool then warn WarnTruncated else ret ()) ;;;
  ret (snd loc).

(** Modelled from the spec: the abstract hook [_predict_proba], whose
    implementations are outside the two source files, on one group of
    [grouped_X]. Spec 4.2: each group is dispatched "to its matching trained
    classifier"; docstring of [predict]: "If its length is shorter than the
    first length in 'models_input_lengths', the prior probabilities are
    used"; spec 8: a length with no classifier must not be indexed silently,
    so such a key yields no result and the call raises. *)
Definition dispatch_group (self : BaseTimeClassifier) (key : option Z) (group : list series)
    : option (list (list (pyfloat Q))) :=
  k ← key ;
  t0 ← checkpoints self !! 0%nat ;
  if decide (k < t0) then
    prior ← class_prior self ;
    Some (map (λ _, map FNum prior) group)
  else
    '(j, _) ← list_find (λ t, t = k) (checkpoints self) ;
    clfs ← classifiers self ;
    clf ← clfs !! j ;
    Some (map clf group).

(** Modelled from the spec: [_predict_proba] over the whole dictionary; the
    result keeps the grouping (one probability vector per series of each
    group, in the group's order). *)
Definition _predict_proba (grouped_X : groups)
    : M BaseTimeClassifier (gmap (option Z) (list (list (pyfloat Q)))) :=
  self <- get ;;
  let res := map_imap (dispatch_group self) grouped_X in
  if decide (dom res = dom grouped_X) then ret res else raise KeyError.

(** [BaseTimeClassifier.predict_proba(X)] ([check_X_y] is external and is
    taken to have accepted [X]). *)
Definition predict_proba (X : list series)
    : M BaseTimeClassifier (gmap (option Z) (list (list (pyfloat Q)))) :=
  grouped_X <- _grouped_by_length X ;;
  _predict_proba grouped_X.

(** [BaseTimeClassifier.predict(X)]: [argmax] over the last axis. *)
Definition predict (X : list series) : M BaseTimeClassifier (gmap (option Z) (list nat)) :=
  probas <- predict_proba X ;;
  ret (fmap (M := gmap (option Z)) (map np_argmax) probas).

End Base.

(** ** [early_classifier.py]: the orchestrator *)
Module Early.
Import Py.
Local Open Scope Z_scope.

Abbreviation series := Base.series.
Abbreviation proba_vector := (list (pyfloat Q)).

(** The trigger model, an external collaborator seen through its capability
    flags and its [predict] method, which is called in three ways: with the
    current probabilities, with the historical probabilities, or (when it
    needs no classifier) with the series alone. *)
Record TriggerModel : Type := {
  require_classifiers : bool;
  require_past_probas : bool;
  alter_classifiers : bool;
  nb_intervals : Z;
  predict_with_probas : list series → list proba_vector → list bool * list (list Q);
  predict_with_past_probas : list series → list (list proba_vector) → list bool * list (list Q);
  predict_alone : list series → list (pyfloat Z) * list bool * list Z
}.

(** The concrete ensemble ([ClassifiersCollection] or
    [DeepChronologicalClassifier], both outside the two source files): the
    attributes of [BaseTimeClassifier], the attribute
    [models_input_lengths] that [score] reads next to [timestamps], and the
    two probability queries with their results in the order of [X]
    ([predict_past_proba]: per series, one vector per checkpoint). *)
Record ChronologicalClassifiers : Type := {
  base : Base.BaseTimeClassifier;
  models_input_lengths_attr : list Z;
  predict_proba : list series → list proba_vector;
  predict_past_proba : list series → list (list proba_vector)
}.

(** [cost_matrices[t][p][c]]: an opaque indexable structure; the first index
    is a Python index, so [-1] designates the last matrix. *)
Definition CostMatrices : Type := Z → Z → Z → Q.

Record EarlyClassifier : Type := {
  cost_matrices : CostMatrices;
  chronological_classifiers : ChronologicalClassifiers;
  trigger_model : TriggerModel;
  new_chronological_classifiers : option ChronologicalClassifiers
}.

(** *** Properties, lines 75-110 *)

Definition models_input_lengths : M EarlyClassifier (list Z) :=
  self <- get ;;
  Base.timestamps_array (Base.timestamps (base (chronological_classifiers self))).

Definition nb_classifiers : M EarlyClassifier (option Z) :=
  self <- get ;; ret (Base.nb_classifiers (base (chronological_classifiers self))).

Definition sampling_ratio : M EarlyClassifier Base.ratio_value :=
  self <- get ;; ret (Base.sampling_ratio (base (chronological_classifiers self))).

Definition base_classifier : M EarlyClassifier Base.Learner :=
  self <- get ;; ret (Base.base_classifier (base (chronological_classifiers self))).

Definition min_length : M EarlyClassifier (option Z) :=
  self <- get ;; ret (Base.min_length (base (chronological_classifiers self))).

(** The setters. Inside the body, [self.nb_classifiers = value] is again an
    assignment to the property, hence a call of the same setter in a new
    frame. [frames] is the number of frames the interpreter still grants;
    with none left the call raises [RecursionError]. *)
Fixpoint nb_classifiers_setter (frames : nat) (value : option Z) : M EarlyClassifier unit :=
  match frames with
  | O => raise RecursionError
  | S frames' => nb_classifiers_setter frames' value
  end.

Fixpoint sampling_ratio_setter (frames : nat) (value : Base.ratio_value)
    : M EarlyClassifier unit :=
  match frames with
  | O => raise RecursionError
  | S frames' => sampling_ratio_setter frames' value
  end.

Fixpoint base_classifier_setter (frames : nat) (value : Base.Learner)
    : M EarlyClassifier Z :=
  match frames with
  | O => raise RecursionError
  | S frames' =>
      base_classifier_setter frames' value ;;;
      self <- get ;;
      ret (nb_intervals (trigger_model self))
  end.

Fixpoint min_length_setter (frames : nat) (value : option Z) : M EarlyClassifier unit :=
  match frames with
  | O => raise RecursionError
  | S frames' => min_length_setter frames' value
  end.

(** *** numpy array helpers *)

(** [a[mask]]. *)
Fixpoint np_take_mask {A} (a : list A) (mask : list bool) : list A :=
  match a, mask with
  | x :: a', m :: mask' => if m then x :: np_take_mask a' mask' else np_take_mask a' mask'
  | _, _ => []
  end.

(** [a[mask] = vals], one value per selected position. *)
Fixpoint np_put_mask {A} (a : list A) (mask : list bool) (vals : list A) : list A :=
  match a, mask with
  | x :: a', m :: mask' =>
      if m then
        match vals with
        | v :: vals' => v :: np_put_mask a' mask' vals'
        | [] => x :: np_put_mask a' mask' []
        end
      else x :: np_put_mask a' mask' vals
  | _, _ => a
  end.

(** [a[mask] = v] with a scalar [v]. *)
Fixpoint np_fill_mask {A} (a : list A) (mask : list bool) (v : A) : list A :=
  match a, mask with
  | x :: a', m :: mask' => (if m then v else x) :: np_fill_mask a' mask' v
  | _, _ => a
  end.

(** [mask.sum()]. *)
Definition np_count (mask : list bool) : Z :=
  Z.of_nat (length (filter (λ b, b = true) mask)).

(** [f < 0] on a float holding an integer, on a rational, and [np.isnan]. *)
Definition is_negative (p : pyfloat Z) : bool :=
  match p with FNum z => z <? 0 | FNaN => false end.
Definition is_nan (p : pyfloat Z) : bool :=
  match p with FNum _ => false | FNaN => true end.
Definition Q_negative (q : Q) : bool := negb (Qle_bool 0 q).

(** [int(p)] on a float: [ValueError] on NaN. *)
Definition int_of_float {St : Type} (p : pyfloat Z) : M St Z :=
  match p with FNum z => ret z | FNaN => raise ValueError end.

(** [a[i]] for a non-negative [i]. *)
Definition py_index {St A : Type} (a : list A) (i : nat) : M St A :=
  match a !! i with Some x => ret x | None => raise IndexError end.

Definition py_enumerate {A} (a : list A) : list (nat * A) := zip (seq 0 (length a)) a.

Fixpoint mapM {St A B : Type} (f : A → M St B) (l : list A) : M St (list B) :=
  match l with
  | [] => ret []
  | x :: l' => v <- f x ;; vs <- mapM f l' ;; ret (v :: vs)
  end.

(** [np.unique(y)[np.argmax(class_prior)]]. *)
Definition majority_class (y : list Z) : M EarlyClassifier Z :=
  self <- get ;;
  match Base.class_prior (base (chronological_classifiers self)) with
  | None => raise TypeError
  | Some prior => py_index (np_unique y) (np_argmax (map FNum prior))
  end.

(** [np.array([cost_matrices[t][int(p)][ys[i]] for i, p in enumerate(preds)])]. *)
Definition costs_of (t : Z) (preds : list (pyfloat Z)) (ys : list Z)
    : M EarlyClassifier (list Q) :=
  self <- get ;;
  mapM (λ '(i, p), c <- int_of_float p ;; yi <- py_index ys i ;;
                   ret (cost_matrices self t c yi))
       (py_enumerate preds).

(** [np.searchsorted(a, v, side='left')] on an ascending array: the first
    position whose entry is not below [v]. *)
Fixpoint np_searchsorted_left (a : list Z) (v : Z) : nat :=
  match a with
  | x :: a' => if x <? v then S (np_searchsorted_left a' v) else O
  | [] => O
  end.

(** [np.where(a == v)[0][0]]: the first position holding [v]. *)
Definition first_index_of {St : Type} (a : list Z) (v : Z) : M St nat :=
  match list_find (λ x, x = v) a with
  | Some (i, _) => ret i
  | None => raise IndexError
  end.

(** *** [EarlyClassifier.predict], lines 227-273
    ([check_X_y] is external and is taken to have accepted [X]). *)
Definition predict (X : list series)
    : M EarlyClassifier
        (list (pyfloat Z) * option (list proba_vector) * list bool * option (list (list Q))) :=
  self <- get ;;
  let tm := trigger_model self in
  chrono_clf <- (if alter_classifiers tm
                 then match new_chronological_classifiers self with
                      | Some c => ret c
                      | None => raise AttributeError
                      end
                 else ret (chronological_classifiers self)) ;;
  if require_classifiers tm then
    let probas := predict_proba chrono_clf X in
    let classes := map (λ v, FNum (Z.of_nat (np_argmax v))) probas in
    if require_past_probas tm then
      let past_probas := predict_past_proba chrono_clf X in
      let '(triggers, costs) := predict_with_past_probas tm X past_probas in
      ret (classes, Some probas, triggers, Some costs)
    else
      let '(triggers, costs) := predict_with_probas tm X probas in
      ret (classes, Some probas, triggers, Some costs)
  else
    let '(classes, triggers, _) := predict_alone tm X in
    ret (classes, None, triggers, None).

(** *** [EarlyClassifier.score], lines 275-356 *)

(** The arrays [score] updates while it walks the checkpoints. *)
Record score_locals : Type := {
  past_trigger : list bool;
  all_preds : list (pyfloat Z);
  all_t_star : list Z;
  all_f_star : list Q
}.

(** [np.nan_to_num(classes, nan=d)]. *)
Definition nan_to_num (d : Z) (p : pyfloat Z) : pyfloat Z :=
  match p with FNum z => FNum z | FNaN => FNum d end.

(** [a[-1]]. *)
Definition py_last {St A : Type} (a : list A) : M St A :=
  match last a with Some x => ret x | None => raise IndexError end.

(** Lines 292-300: the trigger model needs no classifier. *)
Definition score_alone (X : list series) (y : list Z) (loc : score_locals)
    : M EarlyClassifier score_locals :=
  self <- get ;;
  let '(classes, triggers, t_stars) := predict_alone (trigger_model self) X in
  def_preds <- majority_class y ;;
  let preds := map (nan_to_num def_preds) classes in
  mil <- models_input_lengths ;;
  t_stars' <- mapM (λ val, py_index mil (np_searchsorted_left mil val)) t_stars ;;
  f_stars <- mapM (λ '(i, t), k <- first_index_of mil t ;;
                              p <- py_index preds i ;;
                              c <- int_of_float p ;;
                              yi <- py_index y i ;;
                              ret (cost_matrices self (Z.of_nat k) c yi))
                  (py_enumerate t_stars') ;;
  ret {| past_trigger := past_trigger loc; all_preds := preds;
         all_t_star := t_stars'; all_f_star := f_stars |}.

(** Lines 302-307: the classes and the trigger decisions at checkpoint
    number [t] of length [l], when the trigger model uses the classifiers. *)
Definition step_predictions (X : list series) (all_probas : list (list proba_vector))
    (t : nat) (l : Z) : M EarlyClassifier (list (pyfloat Z) * list bool) :=
  self <- get ;;
  let tm := trigger_model self in
  if require_past_probas tm then
    let probas_tmp := map (take (S t)) all_probas in
    classes <- mapM (λ h, c <- py_last (map np_argmax h) ;; ret (FNum (Z.of_nat c)))
                    probas_tmp ;;
    ret (classes, fst (predict_with_past_probas tm (Base.columns_to X l) probas_tmp))
  else
    r <- predict (Base.columns_to X l) ;;
    let '(classes, _, triggers, _) := r in ret (classes, triggers).

(** Lines 327-335: forced termination at the last checkpoint. *)
Definition forced_termination (y : list Z) (classes : list (pyfloat Z)) (l : Z)
    (loc : score_locals) : M EarlyClassifier score_locals :=
  let t_star2 := np_fill_mask (all_t_star loc) (map (λ v, v <? 0) (all_t_star loc)) l in
  let unset := map is_negative (all_preds loc) in
  let preds2 := np_put_mask (all_preds loc) unset (np_take_mask classes unset) in
  preds3 <- (if existsb is_nan preds2
             then m <- majority_class y ;;
                  ret (np_fill_mask preds2 (map is_nan preds2) (FNum m))
             else ret preds2) ;;
  let unpaid := map Q_negative (all_f_star loc) in
  fs <- costs_of (-1) (np_take_mask preds3 unpaid) (np_take_mask y unpaid) ;;
  let f_star2 := np_put_mask (all_f_star loc) unpaid fs in
  ret {| past_trigger := past_trigger loc; all_preds := preds3;
         all_t_star := t_star2; all_f_star := f_star2 |}.

(** Lines 309-320: the newly triggered series freeze their prediction,
    stopping length and cost. *)
Definition freeze_triggered (y : list Z) (classes : list (pyfloat Z))
    (triggers0 : list bool) (t : nat) (l : Z) (loc : score_locals)
    : M EarlyClassifier score_locals :=
  (* [trigger_mask = triggers] binds a second name to the same array: the
     masking of line 312 changes [triggers] as well *)
  let triggers :=
    if decide (np_count (past_trigger loc) ≠ 0)
    then np_fill_mask triggers0 (past_trigger loc) false
    else triggers0 in
  let trigger_mask := triggers in
  let preds1 := np_put_mask (all_preds loc) trigger_mask (np_take_mask classes trigger_mask) in
  let t_star1 := np_fill_mask (all_t_star loc) trigger_mask l in
  fs <- costs_of (Z.of_nat t) (np_take_mask classes trigger_mask)
                 (np_take_mask y trigger_mask) ;;
  let f_star1 := np_put_mask (all_f_star loc) trigger_mask fs in
  let past1 := zip_with orb (past_trigger loc) triggers in
  ret {| past_trigger := past1; all_preds := preds1;
         all_t_star := t_star1; all_f_star := f_star1 |}.

(** Lines 302-336: one turn of the loop at checkpoint number [t] of length
    [l], when the trigger model uses the classifiers. The boolean tells
    whether the turn ends with [break]. *)
Definition score_step (X : list series) (y : list Z) (all_probas : list (list proba_vector))
    (t : nat) (l : Z) (loc : score_locals) : M EarlyClassifier (score_locals * bool) :=
  ct <- step_predictions X all_probas t l ;;
  let '(classes, triggers0) := ct in
  loc1 <- freeze_triggered y classes triggers0 t l loc ;;
  if decide (np_count (past_trigger loc1) = Z.of_nat (length X)) then ret (loc1, true)
  else
    self <- get ;;
    last_l <- py_last (models_input_lengths_attr (chronological_classifiers self)) ;;
    if decide (l = last_l) then
      loc2 <- forced_termination y classes l loc1 ;;
      ret (loc2, true)
    else ret (loc1, false).

(** Lines 289-336: the loop over [enumerate(self.models_input_lengths)]. *)
Fixpoint score_loop (X : list series) (y : list Z) (all_probas : list (list proba_vector))
    (its : list (nat * Z)) (loc : score_locals) : M EarlyClassifier score_locals :=
  match its with
  | [] => ret loc
  | (t, l) :: its' =>
      self <- get ;;
      if negb (require_classifiers (trigger_model self)) then score_alone X y loc
      else
        r <- score_step X y all_probas t l loc ;;
        if snd r : bool then ret (fst r) else score_loop X y all_probas its' (fst r)
  end.

(** What [score] reports. With [return_metrics] the source adds the harmonic
    mean and Cohen's kappa, both computed by external functions from the
    fields below; the tuple [(avg_score, acc, earl)] is the first three. *)
Record metrics : Type := {
  average_cost : Q;
  accuracy : Q;
  earliness : Q;
  pred_t_star : list (pyfloat Z);
  t_star : list Z;
  f_star : list Q
}.

(** [(a == y)] entrywise, as 0/1. *)
Definition float_eq_int (p : pyfloat Z) (c : Z) : Q :=
  match p with
  | FNum z => if decide (z = c) then 1%Q else 0%Q
  | FNaN => 0%Q
  end.

Definition score (X : list series) (y : list Z) : M EarlyClassifier metrics :=
  self <- get ;;
  let n := length X in
  let loc0 := {| past_trigger := replicate n false;
                 all_preds := replicate n (FNum (-1));
                 all_t_star := replicate n (-1);
                 all_f_star := replicate n (-1)%Q |} in
  let all_probas :=
    if require_past_probas (trigger_model self)
    then predict_past_proba (chronological_classifiers self) X
    else [] in
  mil <- models_input_lengths ;;
  loc <- score_loop X y all_probas (py_enumerate mil) loc0 ;;
  ret {| average_cost := np_mean (all_f_star loc);
         accuracy := np_mean (zip_with float_eq_int (all_preds loc) y);
         earliness := (np_mean (map inject_Z (all_t_star loc)) / inject_Z (Base.shape1 X))%Q;
         pred_t_star := all_preds loc;
         t_star := all_t_star loc;
         f_star := all_f_star loc |}.

(** *** [EarlyClassifier.get_post] with [use_probas=False], lines 358-410.
    [classes] is an integer array, on which [np.isnan] is false everywhere:
    each conditional expression of lines 378-384 and 392-394 takes its first
    arm, which is the one written here. *)

(** [row[:] = vals] into a row of [width] entries, with numpy's broadcast of
    a single value. *)
Definition np_set_row {St A : Type} (width : nat) (vals : list A) : M St (list A) :=
  if decide (length vals = width) then ret vals
  else match vals with
       | [v] => ret (replicate width v)
       | _ => raise ValueError
       end.

(** Lines 368-384: the rows [all_preds[t]] and [all_f[t]]. *)
Definition post_row (X : list series) (y : list Z) (last_l : Z) (tl : nat * Z)
    : M EarlyClassifier (list Z * list Q) :=
  self <- get ;;
  let '(t, l) := tl in
  let probas := predict_proba (chronological_classifiers self) (Base.columns_to X l) in
  let classes := map (λ v, Z.of_nat (np_argmax v)) probas in
  preds_row <- np_set_row (length y) classes ;;
  (if decide (l = last_l) then default_pred <- majority_class y ;; ret () else ret ()) ;;;
  f <- costs_of (Z.of_nat t) (map FNum classes) y ;;
  f_row <- np_set_row (length y) f ;;
  ret (preds_row, f_row).

(** Column [i] of a matrix given by its rows. *)
Definition column {A} (d : A) (rows : list (list A)) (i : nat) : list A :=
  map (λ row, nth i row d) rows.

Record post_metrics : Type := {
  t_post : list Z;
  f_post : list Q;
  pred_t_post : list Z;
  average_cost_post : Q
}.

Definition get_post (X : list series) (y : list Z) : M EarlyClassifier post_metrics :=
  mil <- models_input_lengths ;;
  rows <- (match last mil with
           | None => ret []
           | Some last_l => mapM (post_row X y last_l) (py_enumerate mil)
           end) ;;
  let all_preds := map fst rows in
  let all_f := map snd rows in
  t_post_idx <- mapM (λ i, match np_argmin (column 0%Q all_f i) with
                           | Some idx => ret idx
                           | None => raise ValueError
                           end)
                     (seq 0 (length y)) ;;
  all_t_post <- mapM (λ idx, py_index mil idx) t_post_idx ;;
  all_f_post <- mapM (λ '(i, idx), py_index (column 0%Q all_f i) idx)
                     (py_enumerate t_post_idx) ;;
  all_preds_t_post <- mapM (λ '(i, idx), py_index (column 0 all_preds i) idx)
                           (py_enumerate t_post_idx) ;;
  ret {| t_post := all_t_post; f_post := all_f_post; pred_t_post := all_preds_t_post;
         average_cost_post := np_mean all_f_post |}.

End Early.

(** ** Vocabulary of the statements *)
Module Spec.
Import Py Base.
Local Open Scope Z_scope.

(** The minimum length [fit] works with: the configured one, or 1. *)
Definition default_min (self : BaseTimeClassifier) : Z :=
  match min_length self with Some m => m | None => 1 end.

(** The object after lines 33-40 of [fit]. *)
Definition prologue (self : BaseTimeClassifier) (X : list series) (y : list Z)
    : BaseTimeClassifier :=
  set_class_prior
    (Some (map (λ c, (inject_Z (count_eq c y) / inject_Z (Z.of_nat (length y)))%Q)
               (np_unique y)))
    (set_classes_ (Some (np_unique y))
       (set_min_length (Some (default_min self))
          (set_max_length (Some (shape1 X)) self))).

(** A ratio inside (0, 1]. *)
Definition ratio_in_range (q : Q) : bool := negb (Qle_bool q 0) && Qle_bool q 1.

(** A sampling ratio that is a number inside (0, 1]. *)
Definition ratio_valid (sr : ratio_value) : bool :=
  match ratio_number sr with
  | Some q => ratio_in_range q
  | None => false
  end.

(** A non-empty array of non-negative integers. *)
Definition array_valid (a : ndarray) : bool :=
  match a with
  | IntArray zs => negb (bool_decide (zs = [])) && forallb (λ t, 0 <=? t) zs
  | OtherArray _ => false
  end.

(** Explicit timestamps that are a list or an array of non-negative
    integers (and hold at least one). *)
Definition timestamps_valid (ts : timestamps_value) : bool :=
  match ts with
  | TsList l => array_valid (np_array l)
  | TsArray a => array_valid a
  | _ => false
  end.

(** The configurations [fit] rejects: explicit timestamps that are not
    valid, or, without timestamps, a sampling ratio that is not valid. *)
Definition invalid_argument (self : BaseTimeClassifier) : bool :=
  match timestamps self with
  | TsNone =>
      match sampling_ratio self with
      | SrNone => false
      | sr => negb (ratio_valid sr)
      end
  | ts => negb (timestamps_valid ts)
  end.

(** The array an explicit [timestamps] argument denotes. *)
Definition explicit_array (ts : timestamps_value) : option ndarray :=
  match ts with
  | TsList l => Some (np_array l)
  | TsArray a => Some a
  | _ => None
  end.

(** The object when [check_timestamps] starts on an explicit argument: a
    list has been replaced by its array. *)
Definition converted (ts : timestamps_value) (s : BaseTimeClassifier) : BaseTimeClassifier :=
  match ts with
  | TsList l => set_timestamps (TsArray (np_array l)) s
  | _ => s
  end.

(** Lines 56-58 on an integer array. *)
Definition without_duplicates (zs : list Z) : list Z :=
  if decide (length (np_unique zs) ≠ length zs) then np_unique zs else zs.

(** The classifier count lines 65-79 plan before the checkpoints are
    derived. *)
Definition planned_count (self : BaseTimeClassifier) (maxl : Z) : option Z :=
  match sampling_ratio self with
  | SrNone => Some 20
  | sr =>
      q ← ratio_number sr ;
      if ratio_in_range q then Some (Z.min (py_int (1 / q)) (maxl - default_min self + 1))
      else None
  end.

(** Where [_grouped_by_length] files a series when the checkpoints are
    [ts]: the key, the series as it is filed, and whether it was
    truncated. *)
Definition destination (ts : list Z) (serie : series) : option Z * series * bool :=
  let n := Z.of_nat (length serie) in
  if decide (n ∈ ts) then (Some n, serie, false)
  else
    match ts !! 0%nat with
    | Some t0 =>
        if bool_decide (t0 < n) then
          match py_min_key (λ x, n - x) (filter (λ x, x ≤ n) ts) with
          | Some c =>
              if decide (c ≠ 0) then (Some c, py_slice_to serie c, true)
              else (Some c, serie, false)
          | None => (None, serie, false)
          end
        else (Some n, serie, false)
    | None => (Some n, serie, false)
    end.

(** The series filed under key [k], in the order of the batch. *)
Definition filed_under (ts : list Z) (k : option Z) (X : list series) : list series :=
  omap (λ s, let '(k', s', _) := destination ts s in
             if decide (k' = k) then Some s' else None) X.

(** A computation that leaves the object as it found it and emits no
    warning. *)
Definition read_only {St A} (m : M St A) : Prop :=
  ∀ s, final (m s) = s ∧ emitted (m s) = [].

(** The classes the ensemble predicts for the series of [X] cut at length
    [l]: [argmax] of [predict_proba(X[:, :l])]. *)
Definition classes_at (cc : Early.ChronologicalClassifiers) (X : list series) (l : Z)
    : list Z :=
  map (λ v, Z.of_nat (np_argmax v)) (Early.predict_proba cc (columns_to X l)).





(** The number of series a dictionary [grouped_X] holds, all groups
    together. *)
Definition stored (grouped_X : groups) : nat :=
  map_fold (λ _ g n, (length g + n)%nat) 0%nat grouped_X.

(** The warning of lines 34-36. *)
Definition min_warning (self : BaseTimeClassifier) : list warning :=
  match min_length self with None => [WarnNoMinLength] | Some _ => [] end.

(** The warnings of lines 56-63, on the integer array [zs]. *)
Definition explicit_warnings (self : BaseTimeClassifier) (zs : list Z) : list warning :=
  (if decide (length (np_unique zs) ≠ length zs) then [WarnDuplicates] else []) ++
  match sampling_ratio self with SrNone => [] | _ => [WarnBothDefined] end.


End Spec.

(** ** Concrete objects for the examples *)
Module Sample.
Import Py Base.
Local Open Scope Z_scope.

(** A series of [n] measurements, all zero. *)
Definition flat (n : nat) : series := replicate n (FNum 0%Q).

(** Three labelled series of length 100. *)
Definition X100 : list series := [flat 100; flat 100; flat 100].
Definition y3 : list Z := [0; 1; 1].

(** A learner whose classifiers always answer the uniform vector. *)
Definition uniform_learner : Learner :=
  λ _ _ _, [FNum (1 # 2); FNum (1 # 2)].

(** [ratio=0.25, min_length=1], [ratio=0.6], [ratio=2.0] and explicit
    timestamps [[0, 500]]. *)
Definition quarter : BaseTimeClassifier :=
  __init__ TsNone (SrFloat (1 # 4)) (Some 1) uniform_learner.
Definition three_fifths : BaseTimeClassifier :=
  __init__ TsNone (SrFloat (3 # 5)) (Some 1) uniform_learner.
Definition double : BaseTimeClassifier :=
  __init__ TsNone (SrFloat 2) None uniform_learner.
Definition far_apart : BaseTimeClassifier :=
  __init__ (TsList [ItemInt 0; ItemInt 500]) SrNone None uniform_learner.

(** An ensemble fitted on series of length 20 with the explicit timestamps
    [[5, 10, 20]], and a ragged batch of lengths 3, 7, 5, 12, 10, 25. *)
Definition X20 : list series := [flat 20; flat 20; flat 20].
Definition fitted : BaseTimeClassifier :=
  final (fit X20 y3
           (__init__ (TsList [ItemInt 5; ItemInt 10; ItemInt 20]) SrNone (Some 1)
                     uniform_learner)).
Definition ragged : list series := [flat 3; flat 7; flat 5; flat 12; flat 10; flat 25].


(** The timestamps [[20, 5, 10, 5]] with a sampling ratio that is no
    number, and the timestamps [[5, 10, 20]] with none. *)
Definition shuffled : BaseTimeClassifier :=
  __init__ (TsList [ItemInt 20; ItemInt 5; ItemInt 10; ItemInt 5]) SrOther (Some 1)
           uniform_learner.
Definition in_order : BaseTimeClassifier :=
  __init__ (TsList [ItemInt 5; ItemInt 10; ItemInt 20]) SrNone (Some 1) uniform_learner.

(** An ensemble whose first checkpoint is 0 (which [fit] accepts), one
    without any checkpoint, and two batches. *)
Definition with_zero : BaseTimeClassifier :=
  set_timestamps (TsArray (IntArray [0; 10])) fitted.
Definition no_checkpoints : BaseTimeClassifier :=
  set_timestamps (TsArray (IntArray [])) fitted.
Definition short_batch : list series := [flat 3; flat 7; flat 4].
Definition exact_batch : list series := [flat 3; flat 10; flat 5; flat 5; flat 20].

(** Cost matrices: 0 for the right class and 1 for a wrong one, plus a tenth
    per checkpoint waited; three checkpoints, so [-1] designates number 2. *)
Definition unit_costs : Early.CostMatrices :=
  λ t p c, Qplus (if decide (p = c) then 0%Q else 1%Q)
                 (Qmake (if decide (t = -1) then 2 else t) 10).

(** Three series of length 20 told apart by their measurements, with the
    labels [y3]. *)
Definition level (q : Q) : series := replicate 20 (FNum q).
Definition X3 : list series := [level 0; level 1; level 1].

(** An ensemble on [fitted] that answers the same vector for every series,
    at every checkpoint. *)
Definition constant_ensemble (v : Early.proba_vector) : Early.ChronologicalClassifiers :=
  {| Early.base := fitted;
     Early.models_input_lengths_attr := [5; 10; 20];
     Early.predict_proba := λ X, map (λ _, v) X;
     Early.predict_past_proba := λ X, map (λ _, [v; v; v]) X |}.

(** A trigger model that uses the classifiers and never fires. *)
Definition never_fires : Early.TriggerModel :=
  {| Early.require_classifiers := true;
     Early.require_past_probas := false;
     Early.alter_classifiers := false;
     Early.nb_intervals := 5;
     Early.predict_with_probas := λ X _, (map (λ _, false) X, []);
     Early.predict_with_past_probas := λ X _, (map (λ _, false) X, []);
     Early.predict_alone := λ X, ([], [], []) |}.

(** A trigger model that uses the classifiers and fires, at every
    checkpoint, on the series whose first measurement exceeds 1/2. *)
Definition fires_on_high : Early.TriggerModel :=
  {| Early.require_classifiers := true;
     Early.require_past_probas := false;
     Early.alter_classifiers := false;
     Early.nb_intervals := 5;
     Early.predict_with_probas := λ X _,
       (map (λ s, match s with
                  | FNum q :: _ => negb (Qle_bool q (1 # 2))
                  | _ => false
                  end) X, []);
     Early.predict_with_past_probas := λ X _, (map (λ _, false) X, []);
     Early.predict_alone := λ X, ([], [], []) |}.


(** A trigger model that needs no classifier and stops every series at
    length 25, beyond the last checkpoint. *)
Definition runs_late : Early.TriggerModel :=
  {| Early.require_classifiers := false;
     Early.require_past_probas := false;
     Early.alter_classifiers := false;
     Early.nb_intervals := 5;
     Early.predict_with_probas := λ X _, (map (λ _, false) X, []);
     Early.predict_with_past_probas := λ X _, (map (λ _, false) X, []);
     Early.predict_alone := λ X,
       (map (λ _, FNum 0) X, map (λ _, true) X, map (λ _, 25) X) |}.


(** All probabilities NaN, and a trigger that never fires. *)
Definition nan_model : Early.EarlyClassifier :=
  {| Early.cost_matrices := unit_costs;
     Early.chronological_classifiers := constant_ensemble [FNaN; FNaN];
     Early.trigger_model := never_fires;
     Early.new_chronological_classifiers := None |}.

Definition online_model : Early.EarlyClassifier :=
  {| Early.cost_matrices := unit_costs;
     Early.chronological_classifiers := constant_ensemble [FNum (9 # 10); FNum (1 # 10)];
     Early.trigger_model := fires_on_high;
     Early.new_chronological_classifiers := None |}.

Definition y_single : list Z := [0; 0; 0].

Definition late_model : Early.EarlyClassifier :=
  {| Early.cost_matrices := unit_costs;
     Early.chronological_classifiers := constant_ensemble [FNum (9 # 10); FNum (1 # 10)];
     Early.trigger_model := runs_late;
     Early.new_chronological_classifiers := None |}.

End Sample.

(** ** Facts about [classification/_base.py] *)
Module BaseFacts.
Import Py Base Spec.
Local Open Scope Z_scope.

Local Arguments np_sort : simpl never.
Local Arguments np_unique : simpl never.
Local Arguments py_set : simpl never.
Local Arguments derived_lengths : simpl never.
Local Arguments py_int : simpl never.
Local Arguments Qle_bool : simpl never.
Local Arguments Qinv : simpl never.
Local Arguments Qdiv : simpl never.
Local Arguments Z.min : simpl never.
Local Arguments Z.add : simpl never.
Local Arguments Z.sub : simpl never.
Local Arguments Z.of_nat : simpl never.
Local Arguments shape1 : simpl never.
Local Arguments count_eq : simpl never.
Local Arguments inject_Z : simpl never.
Local Arguments np_array : simpl never.
Local Arguments arr_unique : simpl never.
Local Arguments arr_sort : simpl never.

Lemma np_sort_sorted l : Sorted Z.le (np_sort l).
Proof. apply (Sorted_merge_sort Z.le). Qed.

Lemma np_sort_perm l : np_sort l ≡ₚ l.
Proof. apply (merge_sort_Permutation Z.le). Qed.

Lemma sorted_nodup_strict (l : list Z) :
  Sorted Z.le l → NoDup l → StronglySorted Z.lt l.
Proof.
  intros Hs Hn. apply (Sorted_StronglySorted Z.le) in Hs.
  induction Hs as [|x l Hs IH Hx]; [constructor|].
  apply NoDup_cons in Hn as [Hnx Hn]. constructor; [auto|].
  rewrite Forall_forall in *. intros z Hz.
  assert (x ≠ z) by (intros ->; done). specialize (Hx z Hz). lia.
Qed.

Lemma np_sort_strict l : NoDup l → StronglySorted Z.lt (np_sort l).
Proof.
  intros Hn. apply sorted_nodup_strict; [apply np_sort_sorted|].
  by rewrite np_sort_perm.
Qed.

Lemma np_unique_nodup l : NoDup (np_unique l).
Proof. unfold np_unique. rewrite np_sort_perm. apply NoDup_remove_dups. Qed.

Lemma np_unique_elem l z : z ∈ np_unique l ↔ z ∈ l.
Proof. unfold np_unique. by rewrite np_sort_perm, elem_of_remove_dups. Qed.

Lemma remove_dups_length_le (l : list Z) : (length (remove_dups l) ≤ length l)%nat.
Proof.
  apply submseteq_length, NoDup_submseteq; [apply NoDup_remove_dups|].
  intros x. by rewrite elem_of_remove_dups.
Qed.

Lemma without_duplicates_nodup zs : NoDup (without_duplicates zs).
Proof.
  unfold without_duplicates. case_decide as Hlen; [apply np_unique_nodup|].
  unfold np_unique in Hlen.
  rewrite np_sort_perm in Hlen.
  clear -Hlen. induction zs as [|z zs IH]; [constructor|].
  simpl in Hlen. case_decide as Hin.
  - pose proof (remove_dups_length_le zs). simpl in Hlen. lia.
  - simpl in Hlen. constructor; [done|]. apply IH. lia.
Qed.

Lemma without_duplicates_elem zs z : z ∈ without_duplicates zs ↔ z ∈ zs.
Proof. unfold without_duplicates. case_decide; [apply np_unique_elem|done]. Qed.

(** The loop of lines 50-54 on an integer array. *)
Lemma check_ints_spec (zs : list Z) (s : BaseTimeClassifier) :
  check_ints zs s =
    Outcome (if forallb (λ t, 0 <=? t) zs then inr () else inl ValueError) s [].
Proof.
  induction zs as [|t r IH]; [done|]. simpl.
  destruct (Z.ltb_spec t 0) as [Hneg|Hpos].
  - rewrite (proj2 (Z.leb_gt 0 t)) by done. done.
  - rewrite (proj2 (Z.leb_le 0 t)) by done. simpl. apply IH.
Qed.

(** *** What [fit] does, case by case *)

(** Running a sequence: the first part ends normally and the rest runs in
    the state it left, or it raises and the rest is skipped. *)
Lemma bind_inr {St A B} (m : M St A) (k : A → M St B) s a s1 w1 r s2 w2 :
  m s = Outcome (inr a) s1 w1 →
  k a s1 = Outcome r s2 w2 →
  bind m k s = Outcome r s2 (w1 ++ w2).
Proof. intros Hm Hk. unfold bind. rewrite Hm. simpl. by rewrite Hk. Qed.

Lemma bind_inl {St A B} (m : M St A) (k : A → M St B) s e s1 w1 :
  m s = Outcome (inl e) s1 w1 →
  bind m k s = Outcome (inl e) s1 w1.
Proof. intros Hm. unfold bind. by rewrite Hm. Qed.

Lemma bind_run_inr {St A B} (m : M St A) (k : A → M St B) s a s1 w1 :
  m s = Outcome (inr a) s1 w1 →
  bind m k s =
    Outcome (result (k a s1)) (final (k a s1)) (w1 ++ emitted (k a s1)).
Proof. intros Hm. unfold bind. by rewrite Hm. Qed.

Lemma bind_assoc {St A B C} (m : M St A) (f : A → M St B) (g : B → M St C) s :
  bind (bind m f) g s = bind m (λ a, bind (f a) g) s.
Proof.
  unfold bind. destruct (m s) as [[e|a] s1 w1]; simpl; [done|].
  destruct (f a s1) as [[e|b] s2 w2]; simpl; [done|].
  by rewrite app_assoc.
Qed.

Lemma bind_assoc_run {St A B C} (m : M St A) (f : A → M St B) (g : B → M St C) s o :
  bind m (λ a, bind (f a) g) s = o → bind (bind m f) g s = o.
Proof. by rewrite bind_assoc. Qed.

(** Symbolic execution, one statement at a time. *)
Ltac mnorm :=
  cbv beta iota zeta delta
    [fit check_timestamps check_sampling_ratio check_elements derive_timestamps
     sort_timestamps _fit int_attr
     set_timestamps set_sampling_ratio set_min_length set_max_length set_classes_
     set_class_prior set_nb_classifiers set_classifiers checkpoints
     timestamps sampling_ratio min_length max_length classes_ class_prior
     nb_classifiers base_classifier classifiers
     default_min prologue ratio_number converted arr_len arr_unique arr_sort].

Ltac mrun :=
  mnorm;
  lazymatch goal with
  | |- bind (bind _ _) _ _ = _ => apply bind_assoc_run; mrun
  | |- bind _ _ _ = _ =>
      first [ eapply bind_inr; [ solve [mrun] | mrun ]
            | eapply bind_inl; solve [mrun]
            | idtac ]
  | |- _ => try reflexivity
  end.

(** [fit] on an array that is empty, of another dtype, or holds a negative
    entry ([Ha] tells which array the argument denotes). *)
Ltac reject_array Ha :=
  do 2 eexists; split;
  [ mrun; rewrite ?Ha; mrun;
    repeat (lazymatch goal with
            | |- context [decide (length ?zs = 0%nat)] =>
                destruct (decide (length zs = 0%nat));
                  try (exfalso; simpl in *; congruence); mrun
            end);
    try (eapply bind_inl; rewrite check_ints_spec;
         lazymatch goal with Hneg : forallb _ _ = false |- _ => rewrite Hneg end;
         reflexivity)
  | auto ].

Ltac open_fit self :=
  destruct self as [ts sr mn mx cl cp nb bc cf]; simpl in *; subst.

Lemma ratio_in_range_cond q :
  Qle_bool q 0 || negb (Qle_bool q 1) = negb (ratio_in_range q).
Proof. unfold ratio_in_range. by destruct (Qle_bool q 0), (Qle_bool q 1). Qed.

(** No timestamps and a planned count: the checkpoints are derived. *)
Lemma fit_derived self X y count :
  timestamps self = TsNone →
  planned_count self (shape1 X) = Some count →
  let ts := py_set (derived_lengths (shape1 X) (default_min self) count) in
  ∃ w, fit X y self =
    Outcome (inr ())
      (set_classifiers
         (Some (map (λ l, base_classifier self (columns_to X l) y) (np_sort ts)))
         (set_timestamps (TsArray (IntArray (np_sort ts)))
            (set_nb_classifiers (Some (Z.of_nat (length ts))) (prologue self X y))))
      w.
Proof.
  intros Ht Hc. open_fit self. unfold planned_count in Hc.
  destruct sr as [|q|z|]; simpl in Hc; simplify_eq.
  - destruct mn; eexists; mrun.
  - destruct (ratio_in_range q) eqn:Hr; simplify_eq.
    destruct mn; eexists; mrun; rewrite ratio_in_range_cond, Hr; simpl; mrun.
  - destruct (ratio_in_range (inject_Z z)) eqn:Hr; simplify_eq.
    destruct mn; eexists; mrun; rewrite ratio_in_range_cond, Hr; simpl; mrun.
Qed.

(** No timestamps and no admissible count: [fit] raises after the
    prologue. *)
Lemma fit_ratio_rejected self X y :
  timestamps self = TsNone →
  planned_count self (shape1 X) = None →
  ∃ e w, fit X y self = Outcome (inl e) (prologue self X y) w ∧
         e = match ratio_number (sampling_ratio self) with
             | Some _ => ValueError
             | None => TypeError
             end.
Proof.
  intros Ht Hc. open_fit self. unfold planned_count in Hc.
  destruct sr as [|q|z|]; simpl in Hc; simplify_eq.
  - destruct (ratio_in_range q) eqn:Hr; simplify_eq.
    destruct mn; do 2 eexists; (split; [|reflexivity]);
      mrun; rewrite ratio_in_range_cond, Hr; simpl; mrun.
  - destruct (ratio_in_range (inject_Z z)) eqn:Hr; simplify_eq.
    destruct mn; do 2 eexists; (split; [|reflexivity]);
      mrun; rewrite ratio_in_range_cond, Hr; simpl; mrun.
  - destruct mn; do 2 eexists; (split; [|reflexivity]); mrun.
Qed.

(** Valid explicit timestamps: they are kept, without duplicates, sorted. *)
Lemma fit_explicit self X y zs :
  explicit_array (timestamps self) = Some (IntArray zs) →
  array_valid (IntArray zs) = true →
  let ts := np_sort (without_duplicates zs) in
  ∃ w, fit X y self =
    Outcome (inr ())
      (set_classifiers
         (Some (map (λ l, base_classifier self (columns_to X l) y) ts))
         (set_timestamps (TsArray (IntArray ts))
            (set_sampling_ratio SrNone (prologue self X y))))
      w.
Proof.
  intros Ha Hv. open_fit self. unfold without_duplicates.
  simpl in Hv. apply andb_prop in Hv as [Hne Hpos].
  apply negb_true_iff, bool_decide_eq_false in Hne.
  assert (Hlen : length zs ≠ 0%nat) by (by destruct zs).
  destruct ts as [|l|a|]; simpl in Ha; simplify_eq;
    destruct mn, sr;
    (destruct (decide (length (np_unique zs) ≠ length zs)) as [Hd|Hd]);
    eexists; mrun; rewrite ?Ha; mrun;
    (destruct (decide (length zs = 0%nat)); [exfalso; congruence|]); mrun;
    (eapply bind_inr; [by rewrite check_ints_spec, Hpos|]); mrun;
    case_decide; try (exfalso; tauto); mrun.
Qed.

(** Explicit timestamps that are not valid: [fit] raises after the prologue
    (and after the conversion of a list). *)
Lemma fit_explicit_rejected self X y :
  timestamps self ≠ TsNone →
  timestamps_valid (timestamps self) = false →
  ∃ e w, fit X y self =
           Outcome (inl e) (converted (timestamps self) (prologue self X y)) w ∧
         (e = TypeError ∨ e = ValueError).
Proof.
  intros Hn Hv. open_fit self.
  assert (Harr : ∀ a : ndarray, array_valid a = false →
    (∃ n, a = OtherArray n) ∨ a = IntArray [] ∨
    (∃ zs, a = IntArray zs ∧ length zs ≠ 0%nat ∧ forallb (λ t, 0 <=? t) zs = false)).
  { intros [zs|n] Hva; simpl in Hva; [|eauto].
    destruct zs as [|z0 zs']; [auto|].
    rewrite bool_decide_eq_false_2 in Hva by done. right; right; eauto. }
  destruct ts as [|l|a|]; simpl in Hv; try done.
  - destruct (Harr _ Hv) as [[n Ha]|[Ha|(zs & Ha & Hz & Hneg)]];
      try destruct n; destruct mn; simpl converted; reject_array Ha.
  - destruct (Harr _ Hv) as [[n Ha]|[Ha|(zs & Ha & Hz & Hneg)]];
      try destruct n; destruct mn; simpl converted; reject_array Ha.
  - destruct mn; do 2 eexists; (split; [mrun|auto]).
Qed.

(** *** The derived lengths *)

Lemma elem_of_derived_lengths maxl minl count z :
  z ∈ derived_lengths maxl minl count ↔
  ∃ i, 1 ≤ i ≤ count ∧ z = ((maxl - minl) * i) `quot` count + minl.
Proof.
  unfold derived_lengths, py_range. rewrite list_elem_of_fmap.
  split.
  - intros (i & -> & Hi). apply elem_of_seqZ in Hi. exists i. split; [lia|done].
  - intros (i & Hi & ->). exists i. split; [done|]. apply elem_of_seqZ. lia.
Qed.

Lemma quot_floor_nonneg a b : 0 ≤ a → 0 < b → a `quot` b = a `div` b.
Proof. intros. apply Z.quot_div_nonneg; lia. Qed.

Lemma derived_length_bounds maxl minl count i :
  minl ≤ maxl → 1 ≤ i ≤ count →
  minl ≤ ((maxl - minl) * i) `quot` count + minl ≤ maxl.
Proof.
  intros Hmm Hi. rewrite quot_floor_nonneg by nia.
  assert (0 ≤ ((maxl - minl) * i) `div` count) by (apply Z.div_pos; nia).
  assert (((maxl - minl) * i) `div` count ≤ maxl - minl).
  { apply Z.div_le_upper_bound; nia. }
  lia.
Qed.

(** A successful [fit] went through one of the two accepting paths. *)
Lemma fit_success_cases self X y :
  result (fit X y self) = inr () →
  (timestamps self = TsNone ∧ ∃ count, planned_count self (shape1 X) = Some count) ∨
  (∃ zs, explicit_array (timestamps self) = Some (IntArray zs) ∧
         array_valid (IntArray zs) = true).
Proof.
  intros Hok. destruct (timestamps self) as [|l|a|] eqn:Hts.
  - left. split; [done|].
    destruct (planned_count self (shape1 X)) as [count|] eqn:Hc; [eauto|].
    destruct (fit_ratio_rejected self X y Hts Hc) as (e & w & Hfit & _).
    rewrite Hfit in Hok. done.
  - right. destruct (timestamps_valid (TsList l)) eqn:Hv.
    + simpl in Hv. destruct (np_array l) as [zs|n] eqn:Ha; [|done].
      exists zs. simpl. by rewrite Ha.
    + destruct (fit_explicit_rejected self X y) as (e & w & Hfit & _);
        [by rewrite Hts|by rewrite Hts|]. rewrite Hfit in Hok. done.
  - right. destruct (timestamps_valid (TsArray a)) eqn:Hv.
    + simpl in Hv. destruct a as [zs|n]; [|done]. by exists zs.
    + destruct (fit_explicit_rejected self X y) as (e & w & Hfit & _);
        [by rewrite Hts|by rewrite Hts|]. rewrite Hfit in Hok. done.
  - destruct (fit_explicit_rejected self X y) as (e & w & Hfit & _);
      [by rewrite Hts|by rewrite Hts|]. rewrite Hfit in Hok. done.
Qed.

Lemma planned_count_cases self maxl count :
  planned_count self maxl = Some count →
  (sampling_ratio self = SrNone ∧ count = 20) ∨
  (∃ q, sampling_ratio self ≠ SrNone ∧
        ratio_number (sampling_ratio self) = Some q ∧
        ratio_in_range q = true ∧
        count = Z.min (py_int (1 / q)) (maxl - default_min self + 1)).
Proof.
  unfold planned_count. destruct (sampling_ratio self) as [|q|z|]; simpl; intros Hc.
  - left. by simplify_eq.
  - right. exists q. destruct (ratio_in_range q); by simplify_eq.
  - right. exists (inject_Z z). destruct (ratio_in_range (inject_Z z)); by simplify_eq.
  - done.
Qed.

(** *** The checkpoint sequence stored by [fit] *)

(** What a successful [fit] leaves in the object. *)
Lemma fit_success_final self X y :
  result (fit X y self) = inr () →
  let self' := final (fit X y self) in
  min_length self' = Some (default_min self) ∧
  max_length self' = Some (shape1 X) ∧
  ((timestamps self = TsNone ∧
    ∃ count, planned_count self (shape1 X) = Some count ∧
      let ts := py_set (derived_lengths (shape1 X) (default_min self) count) in
      checkpoints self' = np_sort ts ∧
      nb_classifiers self' = Some (Z.of_nat (length ts))) ∨
   (∃ zs, explicit_array (timestamps self) = Some (IntArray zs) ∧
          array_valid (IntArray zs) = true ∧
          checkpoints self' = np_sort (without_duplicates zs))).
Proof.
  intros Hok self'.
  destruct (fit_success_cases self X y Hok) as [[Hts [count Hc]]|(zs & Ha & Hv)].
  - destruct (fit_derived self X y count Hts Hc) as [w Hfit].
    subst self'. rewrite Hfit. repeat split; try reflexivity.
    left. split; [done|]. exists count. by repeat split.
  - destruct (fit_explicit self X y zs Ha Hv) as [w Hfit].
    subst self'. rewrite Hfit. repeat split; try reflexivity.
    right. exists zs. by repeat split.
Qed.

(** C2, as amended. After a successful [fit] the stored checkpoints are
    strictly increasing and free of duplicates, whatever the configuration;
    when they were derived from a count (no explicit timestamps) and
    [min_length <= max_length], each of them lies in
    [[min_length, max_length]]. *)
Theorem fit_checkpoints_increasing self X y :
  result (fit X y self) = inr () →
  let self' := final (fit X y self) in
  StronglySorted Z.lt (checkpoints self') ∧
  NoDup (checkpoints self') ∧
  (timestamps self = TsNone →
   ∀ minl maxl, min_length self' = Some minl → max_length self' = Some maxl →
     minl ≤ maxl → Forall (λ t, minl ≤ t ≤ maxl) (checkpoints self')).
Proof.
  intros Hok self'.
  destruct (fit_success_final self X y Hok) as (Hmin & Hmax & Hcases).
  fold self' in Hmin, Hmax, Hcases.
  destruct Hcases as [[Hts (count & Hc & Hcp & Hnb)]|(zs & Ha & Hv & Hcp)];
    rewrite Hcp.
  - assert (Hn : NoDup (py_set (derived_lengths (shape1 X) (default_min self) count)))
      by apply NoDup_remove_dups.
    split; [by apply np_sort_strict|]. split; [by rewrite np_sort_perm|].
    intros _ minl maxl Hmin' Hmax' Hle.
    rewrite Hmin in Hmin'. rewrite Hmax in Hmax'.
    injection Hmin' as <-. injection Hmax' as <-.
    apply Forall_forall. intros t Ht.
    rewrite np_sort_perm in Ht. unfold py_set in Ht.
    rewrite elem_of_remove_dups in Ht.
    apply elem_of_derived_lengths in Ht as (i & Hi & ->).
    by apply derived_length_bounds.
  - pose proof (without_duplicates_nodup zs) as Hn.
    split; [by apply np_sort_strict|]. split; [by rewrite np_sort_perm|].
    intros Hts. rewrite Hts in Ha. done.
Qed.

Lemma fit_checkpoints_increasing_witness :
  result (fit Sample.X100 Sample.y3 Sample.quarter) = inr () ∧
  StronglySorted Z.lt (checkpoints (final (fit Sample.X100 Sample.y3 Sample.quarter))) ∧
  NoDup (checkpoints (final (fit Sample.X100 Sample.y3 Sample.quarter))) ∧
  Forall (λ t, 1 ≤ t ≤ 100) (checkpoints (final (fit Sample.X100 Sample.y3 Sample.quarter))).
Proof.
  assert (Hok : result (fit Sample.X100 Sample.y3 Sample.quarter) = inr ())
    by (vm_compute; reflexivity).
  destruct (fit_checkpoints_increasing _ _ _ Hok) as (Hs & Hn & Hb).
  repeat split; [exact Hs|exact Hn|].
  apply Hb; [reflexivity|vm_compute; reflexivity|vm_compute; reflexivity|lia].
Defined.

(** C2, as stated, fails: explicit timestamps [[0, 500]] on series of length
    100 are accepted and stored, and neither lies in
    [[min_length, max_length] = [1, 100]]. *)
Lemma fit_explicit_out_of_range :
  let o := fit Sample.X100 Sample.y3 Sample.far_apart in
  result o = inr () ∧
  min_length (final o) = Some 1 ∧
  max_length (final o) = Some 100 ∧
  checkpoints (final o) = [0; 500] ∧
  ¬ Forall (λ t, 1 ≤ t ≤ 100) (checkpoints (final o)).
Proof.
  repeat split; try (vm_compute; reflexivity).
  intros H. apply Forall_cons in H as [H0 _].
  vm_compute in H0. destruct H0 as [H0 _]. by apply H0.
Qed.

(** *** Checkpoints derived from a count *)



(** *** The sampling ratio *)

Lemma ratio_in_range_pos q : ratio_in_range q = true → (0 < q)%Q.
Proof.
  unfold ratio_in_range. intros H. apply andb_prop in H as [H _].
  apply negb_true_iff in H. apply Qnot_le_lt. intros Hle.
  apply Qle_bool_iff in Hle. congruence.
Qed.

(** On a positive ratio, [int(1/ratio)] is the integer part of [1/ratio]. *)
Lemma py_int_inverse q : (0 < q)%Q → py_int (1 / q) = Qfloor (1 / q).
Proof.
  intros Hq. unfold py_int, Qfloor.
  destruct (1 / q)%Q as [n d] eqn:E. simpl.
  apply Z.quot_div_nonneg; [|lia].
  assert (Hnn : (0 <= 1 / q)%Q).
  { apply Qlt_le_weak. apply Qlt_shift_div_l; [done|]. by rewrite Qmult_0_l. }
  rewrite E in Hnn. unfold Qle in Hnn. simpl in Hnn. lia.
Qed.




(** *** Rejected configurations *)

Lemma invalid_without_timestamps self maxl :
  timestamps self = TsNone → invalid_argument self = true →
  planned_count self maxl = None.
Proof.
  unfold invalid_argument, planned_count, ratio_valid. intros -> Hv.
  destruct (sampling_ratio self) as [|q|z|]; simpl in *; try done.
  - by destruct (ratio_in_range q).
  - by destruct (ratio_in_range (inject_Z z)).
Qed.

(** C8, as amended. On explicit timestamps that are not a non-empty list or
    array of non-negative integers, or, without timestamps, on a sampling
    ratio that is not a number inside (0, 1], [fit] raises [TypeError] or
    [ValueError] before any classifier is fitted: [classifiers],
    [nb_classifiers] and [sampling_ratio] are as before the call. By then
    [max_length], [min_length], [classes_] and [class_prior] have been set
    from [(X, y)]. *)
Theorem fit_invalid_argument self X y :
  invalid_argument self = true →
  let o := fit X y self in
  ∃ e, result o = inl e ∧ (e = TypeError ∨ e = ValueError) ∧
       classifiers (final o) = classifiers self ∧
       nb_classifiers (final o) = nb_classifiers self ∧
       sampling_ratio (final o) = sampling_ratio self ∧
       max_length (final o) = Some (shape1 X) ∧
       min_length (final o) = Some (default_min self) ∧
       classes_ (final o) = Some (np_unique y) ∧
       class_prior (final o) = class_prior (prologue self X y).
Proof.
  intros Hinv o. destruct (timestamps self) as [|l|a|] eqn:Hts.
  - pose proof (invalid_without_timestamps self (shape1 X) Hts Hinv) as Hc.
    destruct (fit_ratio_rejected self X y Hts Hc) as (e & w & Hfit & He).
    exists e. subst o. rewrite Hfit. simpl.
    split; [done|]. split; [destruct (ratio_number _); auto|].
    by repeat split.
  - destruct (fit_explicit_rejected self X y) as (e & w & Hfit & He);
      [by rewrite Hts| |].
    { unfold invalid_argument in Hinv. rewrite Hts in *. by apply negb_true_iff. }
    exists e. subst o. rewrite Hfit, Hts. simpl. by repeat split.
  - destruct (fit_explicit_rejected self X y) as (e & w & Hfit & He);
      [by rewrite Hts| |].
    { unfold invalid_argument in Hinv. rewrite Hts in *. by apply negb_true_iff. }
    exists e. subst o. rewrite Hfit, Hts. simpl. by repeat split.
  - destruct (fit_explicit_rejected self X y) as (e & w & Hfit & He);
      [by rewrite Hts| |].
    { by rewrite Hts. }
    exists e. subst o. rewrite Hfit, Hts. simpl. by repeat split.
Qed.

Lemma fit_invalid_argument_witness :
  invalid_argument Sample.double = true ∧
  let o := fit Sample.X100 Sample.y3 Sample.double in
  ∃ e, result o = inl e ∧ (e = TypeError ∨ e = ValueError) ∧
       classifiers (final o) = classifiers Sample.double ∧
       nb_classifiers (final o) = nb_classifiers Sample.double ∧
       sampling_ratio (final o) = sampling_ratio Sample.double ∧
       max_length (final o) = Some (shape1 Sample.X100) ∧
       min_length (final o) = Some (default_min Sample.double) ∧
       classes_ (final o) = Some (np_unique Sample.y3) ∧
       class_prior (final o) = class_prior (prologue Sample.double Sample.X100 Sample.y3).
Proof.
  assert (H : invalid_argument Sample.double = true) by reflexivity.
  split; [exact H|].
  exact (fit_invalid_argument Sample.double Sample.X100 Sample.y3 H).
Defined.

(** C8, as stated, fails: on [sampling_ratio=2.0] the call raises
    [ValueError], yet [max_length], [min_length], [classes_] and
    [class_prior], all [None] before, hold values afterwards. *)
Lemma fit_rejects_after_mutation :
  let o := fit Sample.X100 Sample.y3 Sample.double in
  result o = inl ValueError ∧
  max_length Sample.double = None ∧ max_length (final o) = Some 100 ∧
  min_length Sample.double = None ∧ min_length (final o) = Some 1 ∧
  classes_ Sample.double = None ∧ classes_ (final o) = Some [0; 1] ∧
  class_prior Sample.double = None ∧ class_prior (final o) = Some [1 # 3; 2 # 3].
Proof. repeat split; vm_compute; reflexivity. Qed.

End BaseFacts.

(** ** Facts about [_grouped_by_length] and the prediction entry points *)
Module GroupFacts.
Import Py Base Spec.
Local Open Scope Z_scope.

(** [min(..., key=...)] returns an element of least key. *)
Lemma py_min_key_foldl {A} (key : A → Z) (l : list A) (x : A) :
  let c := foldl (λ best v, if key v <? key best then v else best) x l in
  (c = x ∨ c ∈ l) ∧ key c ≤ key x ∧ ∀ v, v ∈ l → key c ≤ key v.
Proof.
  revert x. induction l as [|v l IH]; intros x; simpl.
  - split; [by left|]. split; [lia|]. intros v Hv. by apply elem_of_nil in Hv.
  - destruct (Z.ltb_spec (key v) (key x)) as [Hlt|Hge].
    + destruct (IH v) as (Hin & Hle & Hall). split; [|split].
      * right. destruct Hin as [->|Hin]; [left|by right].
      * lia.
      * intros u Hu. apply elem_of_cons in Hu as [->|Hu]; [done|by apply Hall].
    + destruct (IH x) as (Hin & Hle & Hall). split; [|split].
      * destruct Hin as [->|Hin]; [by left|right; by right].
      * done.
      * intros u Hu. apply elem_of_cons in Hu as [->|Hu]; [lia|by apply Hall].
Qed.

Lemma py_min_key_spec {A} (key : A → Z) (l : list A) :
  l ≠ [] →
  ∃ c, py_min_key key l = Some c ∧ c ∈ l ∧ ∀ v, v ∈ l → key c ≤ key v.
Proof.
  destruct l as [|x l]; [done|]. intros _. simpl.
  destruct (py_min_key_foldl key l x) as (Hin & Hle & Hall).
  eexists. split; [done|]. split.
  - destruct Hin as [->|Hin]; [left|by right].
  - intros v Hv. apply elem_of_cons in Hv as [->|Hv]; [done|by apply Hall].
Qed.

(** The checkpoint a long series is cut down to: the largest one that does
    not exceed its length. *)
Lemma nearest_checkpoint (ts : list Z) (t0 n : Z) :
  ts !! 0%nat = Some t0 → t0 < n →
  ∃ c, py_min_key (λ x, n - x) (filter (λ x, x ≤ n) ts) = Some c ∧
       c ∈ ts ∧ c ≤ n ∧ ∀ t, t ∈ ts → t ≤ n → t ≤ c.
Proof.
  intros Ht0 Hlt.
  assert (Hin0 : t0 ∈ filter (λ x, x ≤ n) ts).
  { apply list_elem_of_filter. split; [lia|]. by eapply list_elem_of_lookup_2. }
  destruct (py_min_key_spec (λ x, n - x) (filter (λ x, x ≤ n) ts)) as (c & Hc & Hin & Hmin).
  { intros Hnil. rewrite Hnil in Hin0. by apply elem_of_nil in Hin0. }
  exists c. split; [done|]. apply list_elem_of_filter in Hin as [Hle Hin].
  split; [done|]. split; [done|]. intros t Ht Htn.
  assert (n - c ≤ n - t); [|lia].
  apply Hmin, list_elem_of_filter. by split.
Qed.

(** One turn of the loop files the series at its destination. *)
Lemma group_serie_run (ts : list Z) (serie : series) (tr : bool) (g : groups)
    (st : BaseTimeClassifier) :
  ts ≠ [] →
  group_serie ts serie (tr, g) st =
    Outcome (inr (tr || (destination ts serie).2,
                  add_to_group (destination ts serie).1.1 (destination ts serie).1.2 g))
            st [].
Proof.
  intros Hne. unfold group_serie, destination.
  destruct ts as [|t0 ts']; [done|]. simpl lookup.
  case_decide as Hin.
  - unfold bind, ret. simpl. by rewrite orb_false_r.
  - unfold bind, ret. simpl. case_bool_decide as Hlt; simpl.
    + destruct (py_min_key _ _) as [c|]; simpl.
      * case_decide; simpl; [by rewrite orb_true_r|by rewrite orb_false_r].
      * by rewrite orb_false_r.
    + by rewrite orb_false_r.
Qed.

Lemma group_loop_run (ts : list Z) (X : list series) (tr : bool) (g : groups)
    (st : BaseTimeClassifier) :
  ts ≠ [] →
  group_loop ts X (tr, g) st =
    Outcome (inr (tr || existsb (λ s, (destination ts s).2) X,
                  foldl (λ g s, add_to_group (destination ts s).1.1
                                             (destination ts s).1.2 g) g X))
            st [].
Proof.
  intros Hne. revert tr g. induction X as [|s X IH]; intros tr g; cbn [group_loop].
  - unfold ret. simpl. by rewrite orb_false_r.
  - rewrite (BaseFacts.bind_run_inr _ _ _ _ _ _ (group_serie_run ts s tr g st Hne)).
    rewrite IH. simpl. by rewrite orb_assoc.
Qed.

(** The groups after the loop: under each key, the series filed there, in
    the order of the batch. *)
Lemma lookup_add_to_group (k k' : option Z) (s : series) (g : groups) :
  add_to_group k' s g !! k =
    if decide (k' = k) then Some (default [] (g !! k) ++ [s]) else g !! k.
Proof.
  unfold add_to_group. case_decide as Hk.
  - subst k'. destruct (g !! k) as [l|] eqn:Hl; by rewrite lookup_insert_eq.
  - destruct (g !! k'); by rewrite lookup_insert_ne.
Qed.

Lemma lookup_groups_from (ts : list Z) (X : list series) (g : groups) (k : option Z) :
  foldl (λ g s, add_to_group (destination ts s).1.1 (destination ts s).1.2 g) g X !! k =
    match filed_under ts k X with
    | [] => g !! k
    | f => Some (default [] (g !! k) ++ f)
    end.
Proof.
  revert g. induction X as [|s X IH]; intros g; [done|]. simpl.
  rewrite IH, lookup_add_to_group. unfold filed_under at 2. simpl.
  destruct (destination ts s) as [[k' s'] b]. simpl. fold (filed_under ts k X).
  case_decide as Hk; simpl.
  - destruct (filed_under ts k X) as [|f0 f]; [done|]. by rewrite <- app_assoc.
  - done.
Qed.

Lemma lookup_groups (ts : list Z) (X : list series) (k : option Z) :
  foldl (λ g s, add_to_group (destination ts s).1.1 (destination ts s).1.2 g) ∅ X !! k =
    match filed_under ts k X with
    | [] => None
    | f => Some f
    end.
Proof. rewrite lookup_groups_from, lookup_empty. by destruct (filed_under ts k X). Qed.

(** [_grouped_by_length] on a fitted ensemble. *)
Lemma grouped_by_length_run (self : BaseTimeClassifier) (ts : list Z) (X : list series) :
  timestamps self = TsArray (IntArray ts) → ts ≠ [] →
  _grouped_by_length X self =
    Outcome
      (inr (foldl (λ g s, add_to_group (destination ts s).1.1 (destination ts s).1.2 g) ∅ X))
      self
      (if existsb (λ s, (destination ts s).2) X then [WarnTruncated] else []).
Proof.
  intros Hts Hne. unfold _grouped_by_length.
  rewrite (BaseFacts.bind_run_inr get _ self self self [] eq_refl).
  rewrite Hts. cbn [timestamps_array].
  rewrite (BaseFacts.bind_run_inr (ret ts) _ self ts self [] eq_refl).
  rewrite (BaseFacts.bind_run_inr _ _ _ _ _ _ (group_loop_run ts X false ∅ self Hne)).
  simpl. by destruct (existsb _ X).
Qed.

(** *** Where a series goes *)

Lemma elem_of_filed_under ts k X s' :
  s' ∈ filed_under ts k X ↔
  ∃ s, s ∈ X ∧ (destination ts s).1.1 = k ∧ (destination ts s).1.2 = s'.
Proof.
  unfold filed_under. rewrite list_elem_of_omap. split.
  - intros (s & Hs & Hd). exists s. split; [done|].
    destruct (destination ts s) as [[k0 s0] b]. simpl.
    case_decide; by simplify_eq.
  - intros (s & Hs & Hk & Hs'). exists s. split; [done|].
    destruct (destination ts s) as [[k0 s0] b]. simpl in *. subst.
    by rewrite decide_True.
Qed.

(** The three ways a series is filed. *)
Lemma destination_cases ts t0 s :
  ts !! 0%nat = Some t0 →
  ∀ n, n = Z.of_nat (length s) →
  (n ∈ ts ∧ destination ts s = (Some n, s, false)) ∨
  ((n ∉ ts) ∧ n < t0 ∧ destination ts s = (Some n, s, false)) ∨
  ((n ∉ ts) ∧ t0 < n ∧
   ∃ c, c ∈ ts ∧ c ≤ n ∧ (∀ t, t ∈ ts → t ≤ n → t ≤ c) ∧
        destination ts s =
          if decide (c ≠ 0) then (Some c, py_slice_to s c, true) else (Some c, s, false)).
Proof.
  intros Ht0 ? ->. unfold destination. rewrite Ht0.
  set (n := Z.of_nat (length s)).
  case_decide as Hin; [by left|]. right.
  case_bool_decide as Hlt.
  - right. split; [done|]. split; [done|].
    destruct (nearest_checkpoint ts t0 n Ht0 Hlt) as (c & -> & Hc & Hle & Hmax).
    exists c. by repeat split.
  - left. split; [done|]. split; [|done].
    assert (n ≠ t0); [|lia]. intros ->. apply Hin. by eapply list_elem_of_lookup_2.
Qed.

(** Every key is a checkpoint or a length below the first checkpoint. *)
Lemma destination_key ts t0 s :
  ts !! 0%nat = Some t0 →
  ∃ n, (destination ts s).1.1 = Some n ∧ (n ∈ ts ∨ n < t0).
Proof.
  intros Ht0.
  destruct (destination_cases ts t0 s Ht0 _ eq_refl)
    as [[Hin ->]|[(Hin & Hlt & ->)|(Hin & Hlt & c & Hc & _ & _ & ->)]]; simpl; eauto.
  case_decide; simpl; eauto.
Qed.




(** *** Series shorter than every checkpoint *)

(** The spec-modelled dispatch succeeds on every key [_grouped_by_length]
    produces, once there is one classifier per checkpoint. *)
Lemma dispatch_group_defined self ts prior clfs t0 s g :
  timestamps self = TsArray (IntArray ts) →
  class_prior self = Some prior →
  classifiers self = Some clfs →
  length clfs = length ts →
  ts !! 0%nat = Some t0 →
  is_Some (dispatch_group self (destination ts s).1.1 g).
Proof.
  intros Hts Hp Hc Hlen Ht0.
  destruct (destination_key ts t0 s Ht0) as (n & -> & Hn).
  unfold dispatch_group, checkpoints. rewrite Hts, Ht0, Hp, Hc. simpl.
  case_decide as Hlt; [by eexists|].
  destruct Hn as [Hin|Hlt']; [|lia].
  destruct (list_find (λ t, t = n) ts) as [[j t]|] eqn:Hfind; simpl.
  - apply list_find_Some in Hfind as (Hj & _ & _).
    apply lookup_lt_Some in Hj.
    destruct (lookup_lt_is_Some_2 clfs j) as [clf Hclf]; [lia|].
    unfold Classifier in *. rewrite Hclf. by eexists.
  - apply list_find_None in Hfind. rewrite Forall_forall in Hfind.
    by specialize (Hfind n Hin).
Qed.

(** C3. On a fitted ensemble (a class prior and one classifier per
    checkpoint), a series strictly shorter than every checkpoint is filed by
    [_grouped_by_length] untruncated under its own length, which is no
    checkpoint; [predict_proba] returns normally and gives the class prior
    to each series of that group, and [predict] the most probable class
    under the prior: no classifier is consulted for that length. *)
Theorem short_series_get_prior (self : BaseTimeClassifier) (ts : list Z) (prior : list Q)
    (clfs : list Classifier) (X : list series) (s : series) :
  timestamps self = TsArray (IntArray ts) →
  class_prior self = Some prior →
  classifiers self = Some clfs →
  length clfs = length ts →
  ts ≠ [] →
  s ∈ X →
  Forall (λ t, Z.of_nat (length s) < t) ts →
  (Z.of_nat (length s) ∉ ts) ∧
  ∃ grouped probas classes w g,
    _grouped_by_length X self = Outcome (inr grouped) self w ∧
    predict_proba X self = Outcome (inr probas) self w ∧
    predict X self = Outcome (inr classes) self w ∧
    grouped !! Some (Z.of_nat (length s)) = Some g ∧
    s ∈ g ∧
    probas !! Some (Z.of_nat (length s)) = Some (map (λ _, map FNum prior) g) ∧
    classes !! Some (Z.of_nat (length s)) =
      Some (map (λ _, np_argmax (map FNum prior)) g).
Proof.
  intros Hts Hp Hc Hlen Hne Hs Hshort.
  set (n := Z.of_nat (length s)) in *.
  destruct ts as [|t1 ts'] eqn:Ets; [done|]. rewrite <- Ets in *.
  assert (Ht1 : ts !! 0%nat = Some t1) by by rewrite Ets.
  assert (Hn1 : n < t1).
  { rewrite Forall_forall in Hshort. apply Hshort. by eapply list_elem_of_lookup_2. }
  assert (Hnin : n ∉ ts).
  { intros Hin. rewrite Forall_forall in Hshort. specialize (Hshort n Hin). lia. }
  split; [done|].
  set (grouped :=
    foldl (λ g s, add_to_group (destination ts s).1.1 (destination ts s).1.2 g) ∅ X).
  assert (Hrun : _grouped_by_length X self =
    Outcome (inr grouped) self
      (if existsb (λ s, (destination ts s).2) X then [WarnTruncated] else []))
    by by apply grouped_by_length_run.
  set (probas := map_imap (dispatch_group self) grouped).
  assert (Hdom : dom probas = dom grouped).
  { apply set_eq. intros k. rewrite !elem_of_dom. unfold probas.
    rewrite map_lookup_imap. split.
    - intros [v Hv]. destruct (grouped !! k); [by eexists|done].
    - intros [g Hg]. rewrite Hg. simpl.
      unfold grouped in Hg. rewrite lookup_groups in Hg.
      destruct (filed_under ts k X) as [|s0 f] eqn:Hf; [done|].
      assert (Hs0 : s0 ∈ filed_under ts k X) by (rewrite Hf; left).
      apply elem_of_filed_under in Hs0 as (s1 & _ & <- & _).
      by eapply dispatch_group_defined. }
  assert (Hproba : predict_proba X self =
    Outcome (inr probas) self
      (if existsb (λ s, (destination ts s).2) X then [WarnTruncated] else [])).
  { unfold predict_proba.
    rewrite (BaseFacts.bind_run_inr _ _ _ _ _ _ Hrun).
    unfold _predict_proba.
    rewrite (BaseFacts.bind_run_inr get _ self self self [] eq_refl).
    fold probas. rewrite decide_True by done. simpl. by rewrite app_nil_r. }
  assert (Hdest : destination ts s = (Some n, s, false)).
  { destruct (destination_cases ts t1 s Ht1 _ eq_refl)
      as [[Hin _]|[(_ & _ & Hd)|(_ & Hlt & _)]]; [done|done|]. fold n in Hlt. lia. }
  assert (Hfiled : s ∈ filed_under ts (Some n) X).
  { apply elem_of_filed_under. exists s. by rewrite Hdest. }
  assert (Hg : grouped !! Some n = Some (filed_under ts (Some n) X)).
  { unfold grouped. rewrite lookup_groups.
    destruct (filed_under ts (Some n) X); [by apply elem_of_nil in Hfiled|done]. }
  assert (Hpn : probas !! Some n =
                Some (map (λ _, map FNum prior) (filed_under ts (Some n) X))).
  { unfold probas. rewrite map_lookup_imap, Hg. simpl.
    unfold dispatch_group, checkpoints. rewrite Hts, Ht1, Hp. simpl.
    by rewrite decide_True by done. }
  exists grouped, probas, (fmap (M := gmap (option Z)) (map np_argmax) probas).
  do 2 eexists. split; [exact Hrun|]. split; [exact Hproba|]. split.
  { unfold predict. rewrite (BaseFacts.bind_run_inr _ _ _ _ _ _ Hproba).
    simpl. by rewrite app_nil_r. }
  split; [exact Hg|]. split; [exact Hfiled|]. split; [exact Hpn|].
  rewrite lookup_fmap, Hpn. simpl. by rewrite map_map.
Qed.

Lemma short_series_get_prior_witness :
  timestamps Sample.fitted = TsArray (IntArray [5; 10; 20]) ∧
  class_prior Sample.fitted = Some [1 # 3; 2 # 3] ∧
  (∃ clfs, classifiers Sample.fitted = Some clfs ∧ length clfs = length [5; 10; 20]) ∧
  Sample.flat 3 ∈ Sample.ragged ∧
  Forall (λ t, Z.of_nat (length (Sample.flat 3)) < t) [5; 10; 20] ∧
  (Z.of_nat (length (Sample.flat 3)) ∉ [5; 10; 20]) ∧
  ∃ grouped probas classes w g,
    _grouped_by_length Sample.ragged Sample.fitted = Outcome (inr grouped) Sample.fitted w ∧
    predict_proba Sample.ragged Sample.fitted = Outcome (inr probas) Sample.fitted w ∧
    predict Sample.ragged Sample.fitted = Outcome (inr classes) Sample.fitted w ∧
    grouped !! Some (Z.of_nat (length (Sample.flat 3))) = Some g ∧
    Sample.flat 3 ∈ g ∧
    probas !! Some (Z.of_nat (length (Sample.flat 3)))
      = Some (map (λ _, map FNum [1 # 3; 2 # 3]) g) ∧
    classes !! Some (Z.of_nat (length (Sample.flat 3)))
      = Some (map (λ _, np_argmax (map FNum [1 # 3; 2 # 3])) g).
Proof.
  assert (H1 : timestamps Sample.fitted = TsArray (IntArray [5; 10; 20]))
    by (vm_compute; reflexivity).
  assert (H2 : class_prior Sample.fitted = Some [1 # 3; 2 # 3])
    by (vm_compute; reflexivity).
  assert (H3 : classifiers Sample.fitted =
               Some (map (λ l, Sample.uniform_learner (columns_to Sample.X20 l) Sample.y3)
                         [5; 10; 20]))
    by (vm_compute; reflexivity).
  assert (H4 : Sample.flat 3 ∈ Sample.ragged) by left.
  assert (H5 : Forall (λ t, Z.of_nat (length (Sample.flat 3)) < t) [5; 10; 20])
    by (repeat constructor; vm_compute; reflexivity).
  split; [exact H1|]. split; [exact H2|]. split; [eexists; split; [exact H3|done]|].
  split; [exact H4|]. split; [exact H5|].
  exact (short_series_get_prior Sample.fitted [5; 10; 20] [1 # 3; 2 # 3] _
           Sample.ragged (Sample.flat 3) H1 H2 H3 eq_refl ltac:(discriminate) H4 H5).
Defined.

End GroupFacts.

(** ** Facts about [early_classifier.py] *)
Module EarlyFacts.
Import Py Early Spec.
Local Open Scope Z_scope.

(** *** The property setters *)

(** C10. Whatever number of frames the interpreter grants, assigning to
    [nb_classifiers], [sampling_ratio], [base_classifier] or [min_length]
    uses them all up in nested calls of the same setter and ends with
    [RecursionError]; the object is left as it was. *)
Theorem property_setters_never_return (frames : nat) (self : EarlyClassifier)
    (n : option Z) (r : Base.ratio_value) (b : Base.Learner) (m : option Z) :
  nb_classifiers_setter frames n self = Outcome (inl RecursionError) self [] ∧
  sampling_ratio_setter frames r self = Outcome (inl RecursionError) self [] ∧
  base_classifier_setter frames b self = Outcome (inl RecursionError) self [] ∧
  min_length_setter frames m self = Outcome (inl RecursionError) self [].
Proof.
  induction frames as [|frames (IHn & IHr & IHb & IHm)]; [done|].
  repeat split; simpl; try done.
  unfold bind. by rewrite IHb.
Qed.

(** *** [score] only reads the fitted model *)

Lemma read_only_ret {St A} (a : A) : read_only (ret (St := St) a).
Proof. done. Qed.

Lemma read_only_raise {St A} (e : exn) : read_only (raise (St := St) (A := A) e).
Proof. done. Qed.

Lemma read_only_get {St} : read_only (get (St := St)).
Proof. done. Qed.

Lemma read_only_bind {St A B} (m : M St A) (k : A → M St B) :
  read_only m → (∀ a, read_only (k a)) → read_only (bind m k).
Proof.
  intros Hm Hk s. unfold bind. destruct (Hm s) as [Hf He].
  destruct (result (m s)) as [e|a]; simpl; [done|].
  rewrite Hf, He. apply Hk.
Qed.

Lemma read_only_mapM {St A B} (f : A → M St B) (l : list A) :
  (∀ a, read_only (f a)) → read_only (mapM f l).
Proof.
  intros Hf. induction l as [|x l IH]; simpl; [apply read_only_ret|].
  apply read_only_bind; [done|]. intros v.
  apply read_only_bind; [done|]. intros vs. apply read_only_ret.
Qed.

Ltac read_only_step :=
  lazymatch goal with
  | |- read_only (bind _ _) => apply read_only_bind; [|intros ?]
  | |- read_only (ret _) => apply read_only_ret
  | |- read_only (raise _) => apply read_only_raise
  | |- read_only get => apply read_only_get
  | |- read_only (mapM _ _) => apply read_only_mapM; intros ?
  | |- read_only (if ?c then _ else _) => destruct c
  | |- read_only (match ?x with _ => _ end) => destruct x
  | |- read_only (let '(_, _) := ?x in _) => destruct x
  end.

Ltac read_only_auto :=
  repeat (first
    [ read_only_step
    | progress unfold models_input_lengths, majority_class, costs_of, py_index,
        py_last, int_of_float, first_index_of, Base.timestamps_array, np_set_row ]).

Lemma read_only_models_input_lengths : read_only models_input_lengths.
Proof. read_only_auto. Qed.

Lemma read_only_costs_of t preds ys : read_only (costs_of t preds ys).
Proof. unfold costs_of. read_only_auto. Qed.










(** *** numpy's masked reads and writes, entry by entry *)












(** *** Running the monadic helpers *)

Lemma mapM_run {St A B} (f : A → M St B) (g : A → B) (l : list A) (s : St) :
  (∀ a, a ∈ l → f a s = Outcome (inr (g a)) s []) →
  mapM f l s = Outcome (inr (map g l)) s [].
Proof.
  induction l as [|x l IH]; intros Hf; [done|]. simpl.
  rewrite (BaseFacts.bind_run_inr _ _ _ _ _ _ (Hf x ltac:(left))).
  rewrite (BaseFacts.bind_run_inr _ _ _ _ _ _ (IH (λ a Ha, Hf a ltac:(by right)))).
  done.
Qed.

Lemma costs_from_run (self : EarlyClassifier) (t : Z) (all cls : list Z) (k : nat) :
  (length cls + k = length all)%nat →
  mapM (λ '(i, p), c <- int_of_float p ;; yi <- py_index all i ;;
                   ret (cost_matrices self t c yi))
       (zip (seq k (length cls)) (map FNum cls)) self
  = Outcome (inr (zip_with (cost_matrices self t) cls (drop k all))) self [].
Proof.
  revert k. induction cls as [|c cls IH]; intros k Hlen; [done|].
  simpl length. simpl seq. simpl map. simpl zip. cbn [mapM].
  destruct (lookup_lt_is_Some_2 all k) as [yk Hyk]; [simpl in Hlen; lia|].
  rewrite (drop_S _ _ _ Hyk). simpl zip_with.
  assert (Hhead : (c0 <- int_of_float (FNum c) ;; yi <- py_index all k ;;
                   ret (cost_matrices self t c0 yi)) self
                  = Outcome (inr (cost_matrices self t c yk)) self []).
  { unfold int_of_float, py_index. rewrite Hyk. reflexivity. }
  rewrite (BaseFacts.bind_run_inr _ _ _ _ _ _ Hhead).
  rewrite (BaseFacts.bind_run_inr _ _ _ _ _ _ (IH (S k) ltac:(simpl in Hlen; lia))).
  done.
Qed.

(** [costs_of] on integer predictions with as many labels. *)
Lemma costs_of_run (self : EarlyClassifier) (t : Z) (cls ys : list Z) :
  length cls = length ys →
  costs_of t (map FNum cls) ys self =
    Outcome (inr (zip_with (cost_matrices self t) cls ys)) self [].
Proof.
  intros Hlen. unfold costs_of.
  rewrite (BaseFacts.bind_run_inr get _ self self self [] eq_refl).
  unfold py_enumerate. rewrite length_map.
  rewrite (costs_from_run self t ys cls 0) by lia. done.
Qed.


Lemma result_bind {St A B} (m : M St A) (k : A → M St B) (s : St) (a : A) :
  read_only m → result (m s) = inr a → result (bind m k s) = result (k a s).
Proof.
  intros Hro Hm. unfold bind. destruct (Hro s) as [Hf _].
  rewrite Hm. simpl. by rewrite Hf.
Qed.



Lemma read_only_post_row X y last_l tl : read_only (post_row X y last_l tl).
Proof. unfold post_row. read_only_auto. Qed.

(** [enumerate] pairs each entry with its position. *)
Lemma zip_seq_lookup {A} (l : list A) (k i : nat) :
  zip (seq k (length l)) l !! i = (λ x, ((k + i)%nat, x)) <$> l !! i.
Proof.
  revert k i. induction l as [|x l IH]; intros k [|i]; simpl; try done.
  - by rewrite Nat.add_0_r.
  - rewrite IH. by replace (S k + i)%nat with (k + S i)%nat by lia.
Qed.

Lemma py_enumerate_lookup {A} (l : list A) (i : nat) :
  py_enumerate l !! i = (λ x, (i, x)) <$> l !! i.
Proof. unfold py_enumerate. by rewrite zip_seq_lookup. Qed.

Lemma elem_of_py_enumerate {A} (l : list A) (i : nat) (x : A) :
  (i, x) ∈ py_enumerate l ↔ l !! i = Some x.
Proof.
  rewrite list_elem_of_lookup. split.
  - intros [j Hj]. rewrite py_enumerate_lookup in Hj.
    destruct (l !! j) eqn:E; simpl in Hj; by simplify_eq.
  - intros Hi. exists i. by rewrite py_enumerate_lookup, Hi.
Qed.






(** *** The oracle against the online trigger *)
Section PostVsScore.
Context (self : EarlyClassifier) (X : list series) (y : list Z) (mil : list Z)
        (prior : list Q).

Let cc := chronological_classifiers self.
Let tm := trigger_model self.
Let cm := cost_matrices self.

Hypothesis uses_classifiers : require_classifiers tm = true.
Hypothesis keeps_classifiers : alter_classifiers tm = false.
Hypothesis fitted_lengths :
  Base.timestamps (base cc) = Base.TsArray (Base.IntArray mil).
Hypothesis same_lengths : models_input_lengths_attr cc = mil.
Hypothesis distinct_lengths : NoDup mil.
Hypothesis some_length : mil ≠ [].
Hypothesis one_label_each : length y = length X.
Hypothesis one_vector_each : ∀ X', length (predict_proba cc X') = length X'.
Hypothesis one_decision_each :
  ∀ X' P, length (fst (predict_with_probas tm X' P)) = length X'.
Hypothesis one_decision_each_past :
  ∀ X' P, length (fst (predict_with_past_probas tm X' P)) = length X'.
Hypothesis history_agrees :
  require_past_probas tm = true →
  ∀ t l, mil !! t = Some l →
    map (λ h, last (map np_argmax (take (S t) h))) (predict_past_proba cc X)
    = map (λ v, Some (np_argmax v)) (predict_proba cc (Base.columns_to X l)).
Hypothesis costs_nonnegative : ∀ (t : nat) p c, (0 <= cm (Z.of_nat t) p c)%Q.
Hypothesis last_matrix :
  ∀ p c, cm (-1) p c = cm (Z.of_nat (length mil) - 1) p c.
Hypothesis has_prior : Base.class_prior (base cc) = Some prior.
Hypothesis majority_defined : is_Some (np_unique y !! np_argmax (map FNum prior)).

Let all_probas : list (list proba_vector) :=
  if require_past_probas tm then predict_past_proba cc X else [].


















End PostVsScore.



(** C7. With every probability NaN and a trigger that never fires, [score]
    returns without error and stops every series at the last checkpoint,
    20; [np.argmax] of an all-NaN vector is position 0, so the prediction
    kept at line 329 is the number 0 for every series, the [np.isnan] test of
    line 331 finds nothing to replace, and the final prediction is class 0
    although the majority class under [class_prior] is class 1. *)
Theorem nan_probabilities_not_majority :
  ∃ m, result (score Sample.X3 Sample.y3 Sample.nan_model) = inr m ∧
       t_star m = [20; 20; 20] ∧
       pred_t_star m = [FNum 0; FNum 0; FNum 0] ∧
       result (majority_class Sample.y3 Sample.nan_model) = inr 1.
Proof.
  eexists. split; [vm_compute; reflexivity|]. by vm_compute.
Qed.

End EarlyFacts.

(** ** More about [fit]: the class prior, the schedule and its edge cases *)
Module ScheduleFacts.
Import Py Base Spec BaseFacts.
Local Open Scope Z_scope.

Local Arguments np_sort : simpl never.
Local Arguments np_unique : simpl never.
Local Arguments py_set : simpl never.
Local Arguments derived_lengths : simpl never.
Local Arguments py_int : simpl never.
Local Arguments Qle_bool : simpl never.
Local Arguments Qinv : simpl never.
Local Arguments Qdiv : simpl never.
Local Arguments Z.min : simpl never.
Local Arguments Z.add : simpl never.
Local Arguments Z.sub : simpl never.
Local Arguments Z.of_nat : simpl never.
Local Arguments shape1 : simpl never.
Local Arguments count_eq : simpl never.
Local Arguments inject_Z : simpl never.
Local Arguments np_array : simpl never.
Local Arguments arr_unique : simpl never.
Local Arguments arr_sort : simpl never.

Lemma bind_ext {St A B} (m : M St A) (f g : A → M St B) s :
  (∀ a s', f a s' = g a s') → bind m f s = bind m g s.
Proof. intros Hfg. unfold bind. destruct (m s) as [[e|a] s1 w1]; simpl; by rewrite ?Hfg. Qed.

(** [fit] is its first 91 lines followed by the hook. *)
Lemma fit_schedule_then_hook X y s :
  fit X y s = (fit_schedule X y ;;; _fit X y) s.
Proof.
  unfold fit, fit_schedule. symmetry.
  repeat (rewrite bind_assoc; apply bind_ext; intros ? ?).
  done.
Qed.

(** No timestamps and a planned count: the checkpoints are derived. *)
Lemma schedule_derived self X y count :
  timestamps self = TsNone →
  planned_count self (shape1 X) = Some count →
  let ts := py_set (derived_lengths (shape1 X) (default_min self) count) in
  fit_schedule X y self =
    Outcome (inr ())
      (set_timestamps (TsArray (IntArray (np_sort ts)))
         (set_nb_classifiers (Some (Z.of_nat (length ts))) (prologue self X y)))
      (min_warning self ++
       match sampling_ratio self with SrNone => [WarnDefaultSampling] | _ => [] end).
Proof.
  intros Ht Hc ts.
  enough (∃ w, fit_schedule X y self =
            Outcome (inr ())
              (set_timestamps (TsArray (IntArray (np_sort ts)))
                 (set_nb_classifiers (Some (Z.of_nat (length ts))) (prologue self X y))) w ∧
            w = min_warning self ++
                match sampling_ratio self with SrNone => [WarnDefaultSampling] | _ => [] end)
    as (w & Hrun & <-); [done|].
  subst ts. open_fit self. unfold planned_count in Hc. unfold fit_schedule, min_warning.
  destruct sr as [|q|z|]; simpl in Hc; simplify_eq.
  - destruct mn; (eexists; split; [mrun|reflexivity]).
  - destruct (ratio_in_range q) eqn:Hr; simplify_eq.
    destruct mn;
      (eexists; split; [mrun; rewrite ratio_in_range_cond, Hr; simpl; mrun|reflexivity]).
  - destruct (ratio_in_range (inject_Z z)) eqn:Hr; simplify_eq.
    destruct mn;
      (eexists; split; [mrun; rewrite ratio_in_range_cond, Hr; simpl; mrun|reflexivity]).
Qed.

(** Valid explicit timestamps: they are kept, without duplicates, sorted. *)
Lemma schedule_explicit self X y zs :
  explicit_array (timestamps self) = Some (IntArray zs) →
  array_valid (IntArray zs) = true →
  fit_schedule X y self =
    Outcome (inr ())
      (set_timestamps (TsArray (IntArray (np_sort (without_duplicates zs))))
         (set_sampling_ratio SrNone (prologue self X y)))
      (min_warning self ++ explicit_warnings self zs).
Proof.
  intros Ha Hv.
  enough (∃ w, fit_schedule X y self =
            Outcome (inr ())
              (set_timestamps (TsArray (IntArray (np_sort (without_duplicates zs))))
                 (set_sampling_ratio SrNone (prologue self X y))) w ∧
            w = min_warning self ++ explicit_warnings self zs)
    as (w & Hrun & <-); [done|].
  open_fit self. unfold without_duplicates, fit_schedule, min_warning, explicit_warnings.
  simpl in Hv. apply andb_prop in Hv as [Hne Hpos].
  apply negb_true_iff, bool_decide_eq_false in Hne.
  assert (Hlen : length zs ≠ 0%nat) by (by destruct zs).
  destruct ts as [|l|a|]; simpl in Ha; simplify_eq;
    destruct mn, sr;
    (destruct (decide (length (np_unique zs) ≠ length zs)) as [Hd|Hd]);
    (eexists; split;
     [ mrun; rewrite ?Ha; mrun;
       (destruct (decide (length zs = 0%nat)); [exfalso; congruence|]); mrun;
       (eapply bind_inr; [by rewrite check_ints_spec, Hpos|]); mrun;
       case_decide; try (exfalso; tauto); mrun
     | reflexivity ]).
Qed.

(** No timestamps and no admissible count: [fit] raises after the
    prologue. *)
Lemma schedule_ratio_rejected self X y :
  timestamps self = TsNone →
  planned_count self (shape1 X) = None →
  ∃ e w, fit_schedule X y self = Outcome (inl e) (prologue self X y) w.
Proof.
  intros Ht Hc. open_fit self. unfold planned_count in Hc. unfold fit_schedule.
  destruct sr as [|q|z|]; simpl in Hc; simplify_eq.
  - destruct (ratio_in_range q) eqn:Hr; simplify_eq.
    destruct mn; do 2 eexists; mrun; rewrite ratio_in_range_cond, Hr; simpl; mrun.
  - destruct (ratio_in_range (inject_Z z)) eqn:Hr; simplify_eq.
    destruct mn; do 2 eexists; mrun; rewrite ratio_in_range_cond, Hr; simpl; mrun.
  - destruct mn; do 2 eexists; mrun.
Qed.


(** *** The class prior *)










(** *** The derived schedule *)

Lemma sorted_last_greatest (l : list Z) (m : Z) :
  m ∈ l → (∀ z, z ∈ l → z ≤ m) → Sorted Z.le l → last l = Some m.
Proof.
  intros Hin Hub Hs. apply (Sorted_StronglySorted Z.le) in Hs.
  induction Hs as [|a l Hs IH Ha]; [by apply elem_of_nil in Hin|].
  destruct l as [|b l'].
  - apply elem_of_cons in Hin as [->|Hin]; [done|by apply elem_of_nil in Hin].
  - change (last (a :: b :: l')) with (last (b :: l')). apply IH.
    + apply elem_of_cons in Hin as [->|Hin]; [|done].
      rewrite Forall_forall in Ha. assert (a ≤ b) by (apply Ha; left).
      assert (b ≤ a) by (apply Hub; right; left).
      assert (b = a) as -> by lia. left.
    + intros z Hz. apply Hub. by right.
Qed.

Lemma ratio_count_pos q : ratio_in_range q = true → 1 ≤ py_int (1 / q).
Proof.
  intros Hr. pose proof (ratio_in_range_pos q Hr) as Hq.
  rewrite (py_int_inverse q Hq).
  unfold ratio_in_range in Hr. apply andb_prop in Hr as [_ Hle].
  apply Qle_bool_iff in Hle.
  change 1 with (Qfloor 1). apply Qfloor_resp_le.
  apply Qle_shift_div_l; [done|]. by rewrite Qmult_1_l.
Qed.

(** A successful run without timestamps planned a count. *)
Lemma schedule_success_derived self X y :
  timestamps self = TsNone →
  result (fit_schedule X y self) = inr () →
  ∃ count, planned_count self (shape1 X) = Some count.
Proof.
  intros Hts Hok. destruct (planned_count self (shape1 X)) as [count|] eqn:Hc; [eauto|].
  destruct (schedule_ratio_rejected self X y Hts Hc) as (e & w & Hrun).
  rewrite Hrun in Hok. done.
Qed.

(** A successful run without timestamps on series that are long enough:
    the count is positive and [max_length] is among the checkpoints, which
    all lie between [min_length] and [max_length]. *)
Lemma schedule_derived_facts self X y :
  timestamps self = TsNone →
  result (fit_schedule X y self) = inr () →
  default_min self ≤ shape1 X →
  ∃ count cps,
    planned_count self (shape1 X) = Some count ∧ 1 ≤ count ∧
    cps = np_sort (py_set (derived_lengths (shape1 X) (default_min self) count)) ∧
    timestamps (final (fit_schedule X y self)) = TsArray (IntArray cps) ∧
    nb_classifiers (final (fit_schedule X y self)) = Some (Z.of_nat (length cps)) ∧
    shape1 X ∈ cps ∧
    (∀ z, z ∈ cps → default_min self ≤ z ≤ shape1 X) ∧
    (length cps ≤ Z.to_nat count)%nat.
Proof.
  intros Hts Hok Hle.
  destruct (schedule_success_derived self X y Hts Hok) as [count Hc].
  assert (Hcount : 1 ≤ count).
  { destruct (planned_count_cases self _ count Hc) as [[_ ->]|(q & _ & _ & Hr & ->)];
      [lia|]. pose proof (ratio_count_pos q Hr). lia. }
  exists count, (np_sort (py_set (derived_lengths (shape1 X) (default_min self) count))).
  rewrite (schedule_derived self X y count Hts Hc).
  split; [done|]. split; [done|]. split; [done|]. split; [done|].
  split; [cbv [final nb_classifiers set_timestamps set_nb_classifiers];
          by rewrite (Permutation_length (np_sort_perm _))|].
  split; [|split].
  - rewrite np_sort_perm. unfold py_set. rewrite elem_of_remove_dups.
    apply elem_of_derived_lengths. exists count. split; [lia|].
    rewrite Z.quot_mul by lia. lia.
  - intros z Hz. rewrite np_sort_perm in Hz. unfold py_set in Hz.
    rewrite elem_of_remove_dups in Hz.
    apply elem_of_derived_lengths in Hz as (i & Hi & ->).
    by apply derived_length_bounds.
  - rewrite (Permutation_length (np_sort_perm _)). unfold py_set.
    etrans; [apply remove_dups_length_le|].
    unfold derived_lengths, py_range. rewrite length_map, length_seqZ. lia.
Qed.

(** X2. When the checkpoints are derived from a count and
    [min_length <= max_length], the largest checkpoint is [max_length]: the
    full-length series always has a classifier of its own. *)
Theorem derived_last_is_max_length self X y :
  timestamps self = TsNone →
  result (fit_schedule X y self) = inr () →
  default_min self ≤ shape1 X →
  last (checkpoints (final (fit_schedule X y self))) = Some (shape1 X).
Proof.
  intros Hts Hok Hle.
  destruct (schedule_success_derived self X y Hts Hok) as [count Hc].
  rewrite (schedule_derived self X y count Hts Hc).
  cbv [final checkpoints set_timestamps timestamps].
  assert (Hcount : 1 ≤ count).
  { destruct (planned_count_cases self _ count Hc) as [[_ ->]|(q & _ & _ & Hr & ->)];
      [lia|]. pose proof (ratio_count_pos q Hr). lia. }
  apply sorted_last_greatest; [| |apply np_sort_sorted].
  - rewrite np_sort_perm. unfold py_set. rewrite elem_of_remove_dups.
    apply elem_of_derived_lengths. exists count. split; [lia|].
    rewrite Z.quot_mul by lia. lia.
  - intros z Hz. rewrite np_sort_perm in Hz. unfold py_set in Hz.
    rewrite elem_of_remove_dups in Hz.
    apply elem_of_derived_lengths in Hz as (i & Hi & ->).
    by apply derived_length_bounds.
Qed.

Lemma derived_last_is_max_length_witness :
  last (checkpoints (final (fit_schedule Sample.X100 Sample.y3 Sample.three_fifths)))
    = Some 100.
Proof.
  apply (derived_last_is_max_length Sample.three_fifths Sample.X100 Sample.y3);
    [reflexivity|vm_compute; reflexivity|vm_compute; discriminate].
Defined.



(** *** Explicit checkpoints *)

Lemma strictly_sorted_same (l1 l2 : list Z) :
  StronglySorted Z.lt l1 → StronglySorted Z.lt l2 → (∀ z, z ∈ l1 ↔ z ∈ l2) → l1 = l2.
Proof.
  intros H1 H2 Hel.
  assert (Hnd : ∀ l, StronglySorted Z.lt l → NoDup l).
  { induction 1 as [|a l Hs IH Ha]; constructor; [|done].
    rewrite Forall_forall in Ha. intros Hin. specialize (Ha a Hin). lia. }
  apply (StronglySorted_unique_strong Z.lt); try done.
  - intros x y _ _ Hxy Hyx. lia.
  - apply NoDup_Permutation; auto.
Qed.

Lemma forallb_nonneg (zs : list Z) :
  forallb (λ t, 0 <=? t) zs = true ↔ Forall (λ t, 0 ≤ t) zs.
Proof.
  induction zs as [|z zs IH]; simpl; [by split; [constructor|]|].
  rewrite andb_true_iff, Forall_cons, IH, Z.leb_le. done.
Qed.

Lemma stored_array_sorted zs : StronglySorted Z.lt (np_sort (without_duplicates zs)).
Proof. apply np_sort_strict, without_duplicates_nodup. Qed.

Lemma stored_array_elem zs z : z ∈ np_sort (without_duplicates zs) ↔ z ∈ zs.
Proof. by rewrite np_sort_perm, without_duplicates_elem. Qed.

(** X4. On an object that already holds a checkpoint array (strictly
    increasing, non-negative, as a first [fit] leaves it), [fit] on any
    other data keeps that array as it is: [max_length] follows the new data,
    the checkpoints are not derived again from it, and the count
    [nb_classifiers] is not touched. *)
Theorem refit_keeps_checkpoints self zs X y :
  timestamps self = TsArray (IntArray zs) →
  zs ≠ [] →
  StronglySorted Z.lt zs →
  Forall (λ t, 0 ≤ t) zs →
  let o := fit_schedule X y self in
  result o = inr () ∧
  timestamps (final o) = TsArray (IntArray zs) ∧
  max_length (final o) = Some (shape1 X) ∧
  nb_classifiers (final o) = nb_classifiers self.
Proof.
  intros Hts Hne Hs Hpos o. subst o.
  assert (Hv : array_valid (IntArray zs) = true).
  { simpl. rewrite bool_decide_eq_false_2 by done. simpl. by apply forallb_nonneg. }
  rewrite (schedule_explicit self X y zs); [|by rewrite Hts|done].
  assert (np_sort (without_duplicates zs) = zs) as ->.
  { apply strictly_sorted_same; [apply stored_array_sorted|done|apply stored_array_elem]. }
  done.
Qed.

Lemma refit_keeps_checkpoints_witness :
  result (fit_schedule Sample.X100 Sample.y3 Sample.fitted) = inr () ∧
  timestamps (final (fit_schedule Sample.X100 Sample.y3 Sample.fitted))
    = TsArray (IntArray [5; 10; 20]) ∧
  max_length (final (fit_schedule Sample.X100 Sample.y3 Sample.fitted)) = Some 100 ∧
  nb_classifiers (final (fit_schedule Sample.X100 Sample.y3 Sample.fitted))
    = nb_classifiers Sample.fitted.
Proof.
  apply (refit_keeps_checkpoints Sample.fitted [5; 10; 20] Sample.X100 Sample.y3).
  - vm_compute. reflexivity.
  - discriminate.
  - repeat (constructor; [|repeat (constructor; [lia|]); constructor]). constructor.
  - repeat (constructor; [lia|]). constructor.
Defined.

(** X5. The stored checkpoints depend only on which values the explicit
    timestamps hold: two valid arguments with the same values, in any order
    and with any repetitions, leave the same checkpoint array. *)
Theorem explicit_timestamps_as_a_set self1 self2 X1 y1 X2 y2 zs1 zs2 :
  explicit_array (timestamps self1) = Some (IntArray zs1) →
  explicit_array (timestamps self2) = Some (IntArray zs2) →
  array_valid (IntArray zs1) = true →
  (∀ z, z ∈ zs1 ↔ z ∈ zs2) →
  let o1 := fit_schedule X1 y1 self1 in
  let o2 := fit_schedule X2 y2 self2 in
  result o1 = inr () ∧ result o2 = inr () ∧
  timestamps (final o1) = timestamps (final o2).
Proof.
  intros Ha1 Ha2 Hv1 Hsame o1 o2. subst o1 o2.
  assert (Hv2 : array_valid (IntArray zs2) = true).
  { simpl in *. apply andb_prop in Hv1 as [Hne Hpos].
    apply andb_true_intro. split.
    - apply negb_true_iff, bool_decide_eq_false. intros ->.
      apply negb_true_iff, bool_decide_eq_false in Hne.
      destruct zs1 as [|z zs1]; [done|].
      specialize (Hsame z). destruct Hsame as [Hsame _].
      specialize (Hsame ltac:(left)). by apply elem_of_nil in Hsame.
    - apply forallb_nonneg, Forall_forall. intros z Hz.
      apply forallb_nonneg in Hpos. rewrite Forall_forall in Hpos.
      apply Hpos, Hsame, Hz. }
  rewrite (schedule_explicit self1 X1 y1 zs1 Ha1 Hv1).
  rewrite (schedule_explicit self2 X2 y2 zs2 Ha2 Hv2).
  split; [done|]. split; [done|]. cbv [final set_timestamps timestamps].
  do 2 f_equal. apply strictly_sorted_same; try apply stored_array_sorted.
  intros z. by rewrite !stored_array_elem.
Qed.

Lemma explicit_timestamps_as_a_set_witness :
  result (fit_schedule Sample.X20 Sample.y3 Sample.shuffled) = inr () ∧
  result (fit_schedule Sample.X100 Sample.y3 Sample.in_order) = inr () ∧
  timestamps (final (fit_schedule Sample.X20 Sample.y3 Sample.shuffled))
    = timestamps (final (fit_schedule Sample.X100 Sample.y3 Sample.in_order)).
Proof.
  apply (explicit_timestamps_as_a_set Sample.shuffled Sample.in_order
           Sample.X20 Sample.y3 Sample.X100 Sample.y3 [20; 5; 10; 5] [5; 10; 20]).
  - reflexivity.
  - reflexivity.
  - reflexivity.
  - intros z. rewrite !elem_of_cons, !elem_of_nil. tauto.
Defined.

(** X6. With valid explicit timestamps [fit] never examines the sampling
    ratio: whatever it holds, even a value that is no number or lies outside
    (0, 1], the run succeeds, the ratio is reset to [None], the warning
    about both being defined is emitted exactly when the ratio was not
    [None], and [nb_classifiers] is not assigned. *)
Theorem explicit_timestamps_ignore_ratio self X y zs :
  explicit_array (timestamps self) = Some (IntArray zs) →
  array_valid (IntArray zs) = true →
  let o := fit_schedule X y self in
  result o = inr () ∧
  sampling_ratio (final o) = SrNone ∧
  nb_classifiers (final o) = nb_classifiers self ∧
  (WarnBothDefined ∈ emitted o ↔ sampling_ratio self ≠ SrNone) ∧
  (WarnDefaultSampling ∉ emitted o).
Proof.
  intros Ha Hv o. subst o. rewrite (schedule_explicit self X y zs Ha Hv).
  split; [done|]. split; [done|]. split; [done|].
  cbv [emitted]. unfold min_warning, explicit_warnings.
  destruct (min_length self), (decide (length (np_unique zs) ≠ length zs)),
    (sampling_ratio self); simpl;
    rewrite ?elem_of_cons, ?elem_of_nil; intuition congruence.
Qed.

Lemma explicit_timestamps_ignore_ratio_witness :
  result (fit_schedule Sample.X20 Sample.y3 Sample.shuffled) = inr () ∧
  sampling_ratio (final (fit_schedule Sample.X20 Sample.y3 Sample.shuffled)) = SrNone ∧
  nb_classifiers (final (fit_schedule Sample.X20 Sample.y3 Sample.shuffled))
    = nb_classifiers Sample.shuffled ∧
  (WarnBothDefined ∈ emitted (fit_schedule Sample.X20 Sample.y3 Sample.shuffled)
     ↔ sampling_ratio Sample.shuffled ≠ SrNone) ∧
  (WarnDefaultSampling ∉ emitted (fit_schedule Sample.X20 Sample.y3 Sample.shuffled)).
Proof.
  apply (explicit_timestamps_ignore_ratio Sample.shuffled Sample.X20 Sample.y3
           [20; 5; 10; 5]); reflexivity.
Defined.

(** *** How many checkpoints, and which exception *)








End ScheduleFacts.

(** ** More about [_grouped_by_length] *)
Module BatchFacts.
Import Py Base Spec GroupFacts.
Local Open Scope Z_scope.

(** *** Nothing is lost *)

Lemma stored_insert_fresh (g : groups) (k : option Z) (l : list series) :
  g !! k = None → stored (<[k := l]> g) = (length l + stored g)%nat.
Proof.
  intros Hk. unfold stored. rewrite map_fold_insert_L; [done| |done].
  intros. lia.
Qed.

Lemma stored_insert_over (g : groups) (k : option Z) (l l0 : list series) :
  g !! k = Some l0 → (stored (<[k := l]> g) + length l0 = length l + stored g)%nat.
Proof.
  intros Hk.
  assert (Hg : stored g = (length l0 + stored (delete k g))%nat).
  { unfold stored. rewrite (map_fold_delete_L _ _ k l0 g); [done| |done]. intros. lia. }
  rewrite <- (insert_delete_eq g k l).
  rewrite stored_insert_fresh by apply lookup_delete_eq. lia.
Qed.

Lemma stored_add_to_group (k : option Z) (s : series) (g : groups) : stored (add_to_group k s g) = S (stored g).
Proof.
  unfold add_to_group. destruct (g !! k) as [l0|] eqn:Hk.
  - pose proof (stored_insert_over g k (l0 ++ [s]) l0 Hk) as H.
    rewrite length_app in H. simpl in H. lia.
  - rewrite stored_insert_fresh by done. simpl. lia.
Qed.

Lemma stored_groups (ts : list Z) (X : list series) (g : groups) :
  stored (foldl (λ g s, add_to_group (destination ts s).1.1 (destination ts s).1.2 g) g X)
    = (length X + stored g)%nat.
Proof.
  revert g. induction X as [|s X IH]; intros g; [done|]. simpl.
  rewrite IH, stored_add_to_group. lia.
Qed.

Lemma py_slice_to_prefix (s : series) (n : Z) : py_slice_to s n `prefix_of` s.
Proof.
  unfold py_slice_to. destruct (0 <=? n); eexists; symmetry; apply take_drop.
Qed.

(** A series is filed whole or cut to the key, which is then shorter. *)
Lemma destination_whole_or_cut (ts : list Z) (t0 : Z) (s : series) :
  ts !! 0%nat = Some t0 →
  ∃ k, (destination ts s).1.1 = Some k ∧
       ((destination ts s).1.2 = s ∨
        ((destination ts s).1.2 = py_slice_to s k ∧ k < Z.of_nat (length s))).
Proof.
  intros Ht0.
  destruct (destination_cases ts t0 s Ht0 _ eq_refl)
    as [[Hin ->]|[(Hin & Hlt & ->)|(Hin & Hlt & c & Hc & Hle & _ & ->)]]; simpl; eauto.
  case_decide; simpl; [|eauto].
  exists c. split; [done|]. right. split; [done|].
  assert (c ≠ Z.of_nat (length s)) by (intros ->; done). lia.
Qed.

Lemma filed_where_destined (ts : list Z) (X : list series) (s : series) :
  s ∈ X →
  ∃ g, foldl (λ g s, add_to_group (destination ts s).1.1 (destination ts s).1.2 g) ∅ X
         !! (destination ts s).1.1 = Some g ∧
       (destination ts s).1.2 ∈ g.
Proof.
  intros Hs. rewrite lookup_groups.
  assert (Hin : (destination ts s).1.2 ∈ filed_under ts (destination ts s).1.1 X).
  { apply elem_of_filed_under. by exists s. }
  destruct (filed_under ts _ X) as [|f0 f] eqn:Hf; [by apply elem_of_nil in Hin|].
  by eexists.
Qed.

(** X7. On an ensemble with at least one checkpoint, [_grouped_by_length]
    returns and loses nothing: the groups hold as many series as the batch,
    no group is filed under [None] (the default of [min] is never used),
    every stored series is the beginning of a series of the batch, and every
    series of the batch is stored, whole or cut to the key of its group. *)
Theorem grouping_loses_nothing (self : BaseTimeClassifier) (ts : list Z) (X : list series) :
  timestamps self = TsArray (IntArray ts) →
  ts ≠ [] →
  ∃ grouped w,
    _grouped_by_length X self = Outcome (inr grouped) self w ∧
    stored grouped = length X ∧
    grouped !! None = None ∧
    (∀ k g s', grouped !! k = Some g → s' ∈ g → ∃ s, s ∈ X ∧ s' `prefix_of` s) ∧
    (∀ s, s ∈ X →
       ∃ k g, grouped !! Some k = Some g ∧
              (s ∈ g ∨ (py_slice_to s k ∈ g ∧ k < Z.of_nat (length s)))).
Proof.
  intros Hts Hne. do 2 eexists. split; [by apply grouped_by_length_run|].
  destruct ts as [|t0 ts'] eqn:Ets; [done|]. rewrite <- Ets in *.
  assert (Ht0 : ts !! 0%nat = Some t0) by by rewrite Ets.
  split; [|split; [|split]].
  - rewrite stored_groups. unfold stored. rewrite map_fold_empty. lia.
  - rewrite lookup_groups.
    destruct (filed_under ts None X) as [|f0 f] eqn:Hf; [done|].
    assert (Hin : f0 ∈ filed_under ts None X) by (rewrite Hf; left).
    apply elem_of_filed_under in Hin as (s & _ & Hk & _).
    destruct (destination_key ts t0 s Ht0) as (n & Hn & _). congruence.
  - intros k g s' Hg Hs'. rewrite lookup_groups in Hg.
    destruct (filed_under ts k X) as [|f0 f] eqn:Hf; [done|]. injection Hg as <-.
    rewrite <- Hf in Hs'. apply elem_of_filed_under in Hs' as (s & Hs & _ & <-).
    exists s. split; [done|].
    destruct (destination_whole_or_cut ts t0 s Ht0) as (k' & _ & [->|[-> _]]);
      [done|apply py_slice_to_prefix].
  - intros s Hs. destruct (filed_where_destined ts X s Hs) as (g & Hg & Hin).
    destruct (destination_whole_or_cut ts t0 s Ht0) as (k & Hk & Hcase).
    exists k, g. rewrite <- Hk. split; [done|].
    destruct Hcase as [<-|[<- Hlt]]; auto.
Qed.

Lemma grouping_loses_nothing_witness :
  ∃ grouped w,
    _grouped_by_length Sample.ragged Sample.fitted = Outcome (inr grouped) Sample.fitted w ∧
    stored grouped = length Sample.ragged ∧
    grouped !! None = None ∧
    (∀ k g s', grouped !! k = Some g → s' ∈ g → ∃ s, s ∈ Sample.ragged ∧ s' `prefix_of` s) ∧
    (∀ s, s ∈ Sample.ragged →
       ∃ k g, grouped !! Some k = Some g ∧
              (s ∈ g ∨ (py_slice_to s k ∈ g ∧ k < Z.of_nat (length s)))).
Proof.
  apply (grouping_loses_nothing Sample.fitted [5; 10; 20] Sample.ragged);
    [vm_compute; reflexivity|discriminate].
Defined.

(** *** Batches that need no truncation *)

Lemma no_truncation_no_warning (ts : list Z) (X : list series) :
  (∀ s, s ∈ X → (destination ts s).2 = false) →
  existsb (λ s, (destination ts s).2) X = false.
Proof.
  intros Hall. destruct (existsb _ X) eqn:Hex; [|done].
  apply existsb_exists in Hex as (s & Hs & Hd).
  apply list_elem_of_In in Hs. rewrite (Hall s Hs) in Hd. done.
Qed.

Lemma untouched_batch_run (self : BaseTimeClassifier) (ts : list Z) (t0 : Z)
    (X : list series) :
  timestamps self = TsArray (IntArray ts) →
  ts !! 0%nat = Some t0 →
  (∀ s, s ∈ X → Z.of_nat (length s) ∈ ts ∨ Z.of_nat (length s) ≤ t0) →
  ∃ grouped,
    _grouped_by_length X self = Outcome (inr grouped) self [] ∧
    (∀ s, s ∈ X → ∃ g, grouped !! Some (Z.of_nat (length s)) = Some g ∧ s ∈ g) ∧
    (∀ k g s', grouped !! k = Some g → s' ∈ g →
       s' ∈ X ∧ k = Some (Z.of_nat (length s'))).
Proof.
  intros Hts Ht0 Hfit.
  assert (Hne : ts ≠ []) by (by destruct ts).
  assert (Hdest : ∀ s, s ∈ X → destination ts s = (Some (Z.of_nat (length s)), s, false)).
  { intros s Hs.
    destruct (destination_cases ts t0 s Ht0 _ eq_refl)
      as [[Hin ->]|[(Hin & Hlt & ->)|(Hin & Hlt & _)]]; [done|done|].
    destruct (Hfit s Hs); [done|lia]. }
  eexists. split.
  - rewrite (grouped_by_length_run self ts X Hts Hne).
    rewrite no_truncation_no_warning; [done|]. intros s Hs. by rewrite (Hdest s Hs).
  - split.
    + intros s Hs. destruct (filed_where_destined ts X s Hs) as (g & Hg & Hin).
      rewrite (Hdest s Hs) in Hg, Hin. by exists g.
    + intros k g s' Hg Hs'. rewrite lookup_groups in Hg.
      destruct (filed_under ts k X) as [|f0 f] eqn:Hf; [done|]. injection Hg as <-.
      rewrite <- Hf in Hs'. apply elem_of_filed_under in Hs' as (s & Hs & Hk & Hs').
      rewrite (Hdest s Hs) in Hk, Hs'. simpl in *. by subst.
Qed.

(** X8. A batch in which every series has the length of a checkpoint, or is
    not longer than the first checkpoint, goes through untouched: no warning
    is emitted and the groups split the batch by length, every series being
    filed whole under its own length. *)
Theorem exact_lengths_pass_untouched (self : BaseTimeClassifier) (ts : list Z) (t0 : Z)
    (X : list series) :
  timestamps self = TsArray (IntArray ts) →
  ts !! 0%nat = Some t0 →
  (∀ s, s ∈ X → Z.of_nat (length s) ∈ ts ∨ Z.of_nat (length s) ≤ t0) →
  ∃ grouped,
    _grouped_by_length X self = Outcome (inr grouped) self [] ∧
    (∀ s, s ∈ X → ∃ g, grouped !! Some (Z.of_nat (length s)) = Some g ∧ s ∈ g) ∧
    (∀ k g s', grouped !! k = Some g → s' ∈ g →
       s' ∈ X ∧ k = Some (Z.of_nat (length s'))).
Proof. apply untouched_batch_run. Qed.

Lemma exact_lengths_pass_untouched_witness :
  ∃ grouped,
    _grouped_by_length Sample.exact_batch Sample.fitted
      = Outcome (inr grouped) Sample.fitted [] ∧
    (∀ s, s ∈ Sample.exact_batch →
       ∃ g, grouped !! Some (Z.of_nat (length s)) = Some g ∧ s ∈ g) ∧
    (∀ k g s', grouped !! k = Some g → s' ∈ g →
       s' ∈ Sample.exact_batch ∧ k = Some (Z.of_nat (length s'))).
Proof.
  apply (exact_lengths_pass_untouched Sample.fitted [5; 10; 20] 5 Sample.exact_batch).
  - vm_compute. reflexivity.
  - reflexivity.
  - intros s Hs. unfold Sample.exact_batch in Hs.
    repeat (apply elem_of_cons in Hs as [->|Hs]);
      [right|left|left|left|left|by apply elem_of_nil in Hs];
      vm_compute; first [discriminate | repeat (first [by left | right])].
Defined.

(** *** Edge cases of the checkpoint array *)

(** X9. On an ensemble whose checkpoint array is empty, every prediction
    on a batch that holds at least one series raises [IndexError] (line 138
    reads [timestamps[0]]); nothing is returned, changed or warned about. *)
Theorem empty_checkpoints_raise (self : BaseTimeClassifier) (X : list series) :
  timestamps self = TsArray (IntArray []) →
  X ≠ [] →
  _grouped_by_length X self = Outcome (inl IndexError) self [] ∧
  predict_proba X self = Outcome (inl IndexError) self [] ∧
  predict X self = Outcome (inl IndexError) self [].
Proof.
  intros Hts Hne. destruct X as [|s X]; [done|].
  assert (Hg : _grouped_by_length (s :: X) self = Outcome (inl IndexError) self []).
  { unfold _grouped_by_length.
    rewrite (BaseFacts.bind_run_inr get _ self self self [] eq_refl).
    rewrite Hts. cbn [timestamps_array].
    rewrite (BaseFacts.bind_run_inr (ret []) _ self [] self [] eq_refl).
    erewrite BaseFacts.bind_inl; [reflexivity|].
    cbn [group_loop]. apply BaseFacts.bind_inl. unfold group_serie.
    apply BaseFacts.bind_inl. rewrite decide_False by apply not_elem_of_nil. done. }
  split; [done|].
  assert (Hp : predict_proba (s :: X) self = Outcome (inl IndexError) self []).
  { unfold predict_proba. by apply BaseFacts.bind_inl. }
  split; [done|]. unfold predict. by apply BaseFacts.bind_inl.
Qed.

Lemma empty_checkpoints_raise_witness :
  _grouped_by_length Sample.ragged Sample.no_checkpoints
    = Outcome (inl IndexError) Sample.no_checkpoints [] ∧
  predict_proba Sample.ragged Sample.no_checkpoints
    = Outcome (inl IndexError) Sample.no_checkpoints [] ∧
  predict Sample.ragged Sample.no_checkpoints
    = Outcome (inl IndexError) Sample.no_checkpoints [].
Proof.
  apply (empty_checkpoints_raise Sample.no_checkpoints Sample.ragged);
    [reflexivity|discriminate].
Defined.

(** X10. When the first checkpoint is 0 (which [fit] accepts), a series
    whose length is no checkpoint and lies below every other checkpoint is
    filed under key 0 with all its measurements: [min] selects the
    checkpoint 0, the test [if length:] of line 142 takes it for false, and
    the series is neither cut nor reported by the warning. The group of key
    0 then holds series that are not of length 0. *)
Theorem zero_checkpoint_files_whole (self : BaseTimeClassifier) (ts : list Z)
    (X : list series) :
  timestamps self = TsArray (IntArray ts) →
  ts !! 0%nat = Some 0 →
  (∀ s, s ∈ X → (Z.of_nat (length s) ∉ ts) ∧
                 ∀ t, t ∈ ts → t ≤ Z.of_nat (length s) → t = 0) →
  ∃ grouped,
    _grouped_by_length X self = Outcome (inr grouped) self [] ∧
    ∀ s, s ∈ X → ∃ g, grouped !! Some 0 = Some g ∧ s ∈ g ∧ length s ≠ 0%nat.
Proof.
  intros Hts Ht0 Hall.
  assert (Hne : ts ≠ []) by (by destruct ts).
  assert (H0 : 0 ∈ ts) by (by eapply list_elem_of_lookup_2).
  assert (Hdest : ∀ s, s ∈ X → destination ts s = (Some 0, s, false)).
  { intros s Hs. destruct (Hall s Hs) as [Hnin Hbelow].
    destruct (destination_cases ts 0 s Ht0 _ eq_refl)
      as [[Hin _]|[(_ & Hlt & _)|(_ & Hlt & c & Hc & Hle & _ & ->)]]; [done|lia|].
    rewrite (Hbelow c Hc Hle). by rewrite decide_False by (intros H; by apply H). }
  eexists. split.
  - rewrite (grouped_by_length_run self ts X Hts Hne).
    rewrite no_truncation_no_warning; [done|]. intros s Hs. by rewrite (Hdest s Hs).
  - intros s Hs. destruct (filed_where_destined ts X s Hs) as (g & Hg & Hin).
    rewrite (Hdest s Hs) in Hg, Hin. exists g. split; [done|]. split; [done|].
    destruct (Hall s Hs) as [Hnin _]. intros Hlen. apply Hnin. by rewrite Hlen.
Qed.

Lemma zero_checkpoint_files_whole_witness :
  ∃ grouped,
    _grouped_by_length Sample.short_batch Sample.with_zero
      = Outcome (inr grouped) Sample.with_zero [] ∧
    ∀ s, s ∈ Sample.short_batch →
      ∃ g, grouped !! Some 0 = Some g ∧ s ∈ g ∧ length s ≠ 0%nat.
Proof.
  apply (zero_checkpoint_files_whole Sample.with_zero [0; 10] Sample.short_batch).
  - reflexivity.
  - reflexivity.
  - intros s Hs. unfold Sample.short_batch in Hs.
    repeat (apply elem_of_cons in Hs as [->|Hs]); [| | |by apply elem_of_nil in Hs];
      (split; [vm_compute; intros H; repeat (apply elem_of_cons in H as [H|H]; [discriminate|]);
               by apply elem_of_nil in H
              |intros t Ht Hle; repeat (apply elem_of_cons in Ht as [->|Ht]); [done| |by apply elem_of_nil in Ht];
               vm_compute in Hle; by exfalso]).
Defined.

(** *** After [fit] *)

(** X19. [fit] then [_grouped_by_length]: when the checkpoints were derived
    from a count and [min_length <= max_length], series of the length
    [fit] saw are never cut: a batch of such series is grouped without
    warning, whole, under the key [max_length]. *)
Theorem training_length_not_truncated (self : BaseTimeClassifier) (X : list series)
    (y : list Z) (X' : list series) :
  timestamps self = TsNone →
  result (fit_schedule X y self) = inr () →
  Spec.default_min self ≤ shape1 X →
  (∀ s, s ∈ X' → Z.of_nat (length s) = shape1 X) →
  let fitted := final (fit_schedule X y self) in
  ∃ grouped,
    _grouped_by_length X' fitted = Outcome (inr grouped) fitted [] ∧
    ∀ s, s ∈ X' → ∃ g, grouped !! Some (shape1 X) = Some g ∧ s ∈ g.
Proof.
  intros Hts Hok Hle Hlen fitted.
  destruct (ScheduleFacts.schedule_derived_facts self X y Hts Hok Hle)
    as (count & cps & _ & _ & _ & Hfinal & _ & Htop & _).
  fold fitted in Hfinal.
  destruct cps as [|t0 cps'] eqn:Ecps; [by apply elem_of_nil in Htop|].
  rewrite <- Ecps in *.
  destruct (untouched_batch_run fitted cps t0 X' Hfinal) as (grouped & Hrun & Hall & _).
  - by rewrite Ecps.
  - intros s Hs. left. by rewrite (Hlen s Hs).
  - exists grouped. split; [done|]. intros s Hs.
    destruct (Hall s Hs) as (g & Hg & Hin). rewrite (Hlen s Hs) in Hg. by exists g.
Qed.

Lemma training_length_not_truncated_witness :
  ∃ grouped,
    _grouped_by_length Sample.X100 (final (fit_schedule Sample.X100 Sample.y3 Sample.quarter))
      = Outcome (inr grouped)
          (final (fit_schedule Sample.X100 Sample.y3 Sample.quarter)) [] ∧
    ∀ s, s ∈ Sample.X100 → ∃ g, grouped !! Some (shape1 Sample.X100) = Some g ∧ s ∈ g.
Proof.
  apply (training_length_not_truncated Sample.quarter Sample.X100 Sample.y3 Sample.X100).
  - reflexivity.
  - vm_compute. reflexivity.
  - vm_compute. discriminate.
  - intros s Hs. unfold Sample.X100 in Hs.
    repeat (apply elem_of_cons in Hs as [->|Hs]; [reflexivity|]).
    by apply elem_of_nil in Hs.
Defined.

End BatchFacts.

(** ** More about [score]: where each series stops *)
Module StopFacts.
Import Py Early Spec EarlyFacts.
Local Open Scope Z_scope.

Section StopTimes.
Context (self : EarlyClassifier) (X : list series) (y : list Z) (mil : list Z).

Let cc := chronological_classifiers self.
Let tm := trigger_model self.
Let cm := cost_matrices self.

Hypothesis uses_classifiers : require_classifiers tm = true.
Hypothesis keeps_classifiers : alter_classifiers tm = false.
Hypothesis fitted_lengths :
  Base.timestamps (base cc) = Base.TsArray (Base.IntArray mil).
Hypothesis same_lengths : models_input_lengths_attr cc = mil.
Hypothesis distinct_lengths : NoDup mil.
Hypothesis some_length : mil ≠ [].
Hypothesis lengths_not_negative : Forall (λ l, 0 ≤ l) mil.
Hypothesis one_label_each : length y = length X.
Hypothesis one_vector_each : ∀ X', length (predict_proba cc X') = length X'.
Hypothesis one_decision_each :
  ∀ X' P, length (fst (predict_with_probas tm X' P)) = length X'.
Hypothesis one_decision_each_past :
  ∀ X' P, length (fst (predict_with_past_probas tm X' P)) = length X'.
Hypothesis history_agrees :
  require_past_probas tm = true →
  ∀ t l, mil !! t = Some l →
    map (λ h, last (map np_argmax (take (S t) h))) (predict_past_proba cc X)
    = map (λ v, Some (np_argmax v)) (predict_proba cc (Base.columns_to X l)).
Hypothesis costs_nonnegative : ∀ (t : nat) p c, (0 <= cm (Z.of_nat t) p c)%Q.
Hypothesis last_matrix :
  ∀ p c, cm (-1) p c = cm (Z.of_nat (length mil) - 1) p c.

Let all_probas : list (list proba_vector) :=
  if require_past_probas tm then predict_past_proba cc X else [].
















End StopTimes.

(** *** A trigger model that needs no classifier *)

Lemma result_bind_raise {St A B} (m : M St A) (k : A → M St B) (s : St) (e : exn) :
  result (m s) = inl e → result (bind m k s) = inl e.
Proof. intros Hm. unfold bind. by rewrite Hm. Qed.

(** A loop whose turns can only fail with [e], and one of which does. *)
Lemma mapM_raises {St A B} (f : A → M St B) (l : list A) (s : St) (e : exn) :
  (∀ a, read_only (f a)) →
  (∀ a, a ∈ l → (∃ b, result (f a s) = inr b) ∨ result (f a s) = inl e) →
  (∃ a, a ∈ l ∧ result (f a s) = inl e) →
  result (mapM f l s) = inl e.
Proof.
  intros Hro. induction l as [|x l IH]; intros Hall (a & Ha & Hraise).
  - by apply elem_of_nil in Ha.
  - simpl. destruct (Hall x ltac:(left)) as [[b Hb]|Hx];
      [|by apply result_bind_raise].
    rewrite (result_bind _ _ _ b (Hro x) Hb).
    apply result_bind_raise. apply IH.
    + intros a' Ha'. apply Hall. by right.
    + apply elem_of_cons in Ha as [->|Ha]; [congruence|]. by exists a.
Qed.


Lemma searchsorted_beyond (a : list Z) (v : Z) :
  (∀ l, l ∈ a → l < v) → a !! np_searchsorted_left a v = None.
Proof.
  induction a as [|x a IH]; intros Hall; [done|]. simpl.
  rewrite (proj2 (Z.ltb_lt x v)) by (apply Hall; left).
  simpl. apply IH. intros l Hl. apply Hall. by right.
Qed.




Lemma models_input_lengths_fitted (self : EarlyClassifier) (mil : list Z) :
  Base.timestamps (base (chronological_classifiers self))
    = Base.TsArray (Base.IntArray mil) →
  result (models_input_lengths self) = inr mil.
Proof.
  intros Hts. unfold models_input_lengths.
  rewrite (result_bind get _ self self read_only_get eq_refl). by rewrite Hts.
Qed.




(** X13. When the trigger model needs no classifier and returns, for some
    series, a stopping time beyond every checkpoint, [score] raises
    [IndexError] (line 296 indexes the checkpoint array one past its
    end). *)
Theorem stand_alone_time_beyond_checkpoints (self : EarlyClassifier) (X : list series)
    (y mil : list Z) (prior : list Q)
    (classes : list (pyfloat Z)) (triggers : list bool) (times : list Z) (v : Z) :
  require_classifiers (trigger_model self) = false →
  Base.timestamps (base (chronological_classifiers self))
    = Base.TsArray (Base.IntArray mil) →
  mil ≠ [] →
  Base.class_prior (base (chronological_classifiers self)) = Some prior →
  predict_alone (trigger_model self) X = (classes, triggers, times) →
  v ∈ times →
  (∀ l, l ∈ mil → l < v) →
  result (score X y self) = inl IndexError.
Proof.
  intros Hreq Hts Hne Hprior Hpa Hv Hbeyond. unfold score.
  rewrite (result_bind get _ self self read_only_get eq_refl). cbv zeta.
  rewrite (result_bind _ _ self mil read_only_models_input_lengths
             (models_input_lengths_fitted self mil Hts)).
  apply result_bind_raise.
  destruct mil as [|l0 rest] eqn:Emil; [done|]. rewrite <- Emil in *.
  unfold py_enumerate. rewrite Emil at 1 2. simpl length. simpl seq. simpl zip.
  cbn [score_loop].
  rewrite (result_bind get _ self self read_only_get eq_refl).
  rewrite Hreq. cbn [negb]. unfold score_alone.
  rewrite (result_bind get _ self self read_only_get eq_refl). rewrite Hpa.
  assert (Hmaj : (∃ d, result (majority_class y self) = inr d) ∨
                 result (majority_class y self) = inl IndexError).
  { unfold majority_class.
    rewrite (result_bind get _ self self read_only_get eq_refl). rewrite Hprior.
    unfold py_index. destruct (np_unique y !! _); [left; by eexists|by right]. }
  destruct Hmaj as [[d Hd]|Hraise]; [|by apply result_bind_raise].
  rewrite (result_bind _ _ self d); [|unfold majority_class; read_only_auto|done].
  rewrite (result_bind _ _ self mil read_only_models_input_lengths
             (models_input_lengths_fitted self mil Hts)).
  apply result_bind_raise. apply mapM_raises.
  - intros u. read_only_auto.
  - intros u _. unfold py_index. destruct (mil !! _); [left; by eexists|by right].
  - exists v. split; [done|]. unfold py_index.
    by rewrite (searchsorted_beyond mil v Hbeyond).
Qed.

Lemma stand_alone_time_beyond_checkpoints_witness :
  result (score Sample.X3 Sample.y3 Sample.late_model) = inl IndexError.
Proof.
  apply (stand_alone_time_beyond_checkpoints Sample.late_model Sample.X3 Sample.y3
           [5; 10; 20] [1 # 3; 2 # 3] [FNum 0; FNum 0; FNum 0] [true; true; true]
           [25; 25; 25] 25).
  - reflexivity.
  - vm_compute. reflexivity.
  - discriminate.
  - vm_compute. reflexivity.
  - reflexivity.
  - left.
  - intros l Hl. repeat (apply elem_of_cons in Hl as [->|Hl]; [lia|]).
    by apply elem_of_nil in Hl.
Defined.


End StopFacts.

(** ** More about [get_post]: the cheapest checkpoint in hindsight *)
Module OracleFacts.
Import Py Early Spec EarlyFacts StopFacts.
Local Open Scope Z_scope.



Section Oracle.
Context (self : EarlyClassifier) (X : list series) (y : list Z) (mil : list Z)
        (prior : list Q).

Let cc := chronological_classifiers self.
Let cm := cost_matrices self.

Hypothesis fitted_lengths :
  Base.timestamps (base cc) = Base.TsArray (Base.IntArray mil).
Hypothesis some_length : mil ≠ [].
Hypothesis one_label_each : length y = length X.
Hypothesis one_vector_each : ∀ X', length (predict_proba cc X') = length X'.
Hypothesis has_prior : Base.class_prior (base cc) = Some prior.


(** A row of [get_post] when the majority class does not exist: the row
    of the last checkpoint raises, the others are built. *)
Lemma post_row_without_majority t l last_l :
  np_unique y !! np_argmax (map FNum prior) = None →
  mil !! t = Some l →
  if decide (l = last_l)
  then result (post_row X y last_l (t, l) self) = inl IndexError
  else ∃ r, result (post_row X y last_l (t, l) self) = inr r.
Proof.
  intros Hnone Htl. unfold post_row.
  rewrite (result_bind get _ self self read_only_get eq_refl).
  change (chronological_classifiers self) with cc.
  change (map (λ v, Z.of_nat (np_argmax v)) (predict_proba cc (Base.columns_to X l)))
    with (classes_at cc X l).
  assert (Hlen : length (classes_at cc X l) = length y).
  { unfold classes_at. rewrite length_map, one_vector_each.
    unfold Base.columns_to. rewrite length_map. done. }
  rewrite (result_bind _ _ self (classes_at cc X l));
    [|unfold np_set_row; read_only_auto
     |unfold np_set_row; by rewrite decide_True by done].
  case_decide as Hl.
  - apply result_bind_raise. apply result_bind_raise. unfold majority_class.
    rewrite (result_bind get _ self self read_only_get eq_refl).
    change (chronological_classifiers self) with cc. rewrite has_prior.
    unfold py_index. by rewrite Hnone.
  - rewrite (result_bind _ _ self ()); [|apply read_only_ret|done].
    rewrite (result_bind _ _ self (zip_with (cm (Z.of_nat t)) (classes_at cc X l) y));
      [|apply read_only_costs_of|by rewrite costs_of_run].
    rewrite (result_bind _ _ self (zip_with (cm (Z.of_nat t)) (classes_at cc X l) y));
      [by eexists|unfold np_set_row; read_only_auto|].
    unfold np_set_row. rewrite decide_True; [done|].
    rewrite length_zip_with. lia.
Qed.

(** X15. [get_post] (with [use_probas=False]) computes the majority class
    at the last checkpoint whether it is needed or not (line 377): when
    the position of the greatest class prior is not a position of
    [np.unique(y)], that is, when [y] holds fewer classes than the
    ensemble was fitted on and the most frequent of those is beyond them,
    [get_post] raises [IndexError]. *)
Theorem get_post_needs_majority_class :
  np_unique y !! np_argmax (map FNum prior) = None →
  result (get_post X y self) = inl IndexError.
Proof.
  intros Hnone. unfold get_post.
  rewrite (result_bind _ _ self mil read_only_models_input_lengths
             (models_input_lengths_fitted self mil fitted_lengths)).
  destruct (last mil) as [last_l|] eqn:Hlast;
    [|by apply last_None in Hlast].
  apply result_bind_raise. apply mapM_raises.
  - intros tl. apply read_only_post_row.
  - intros [t l] Htl. apply elem_of_py_enumerate in Htl.
    pose proof (post_row_without_majority t l last_l Hnone Htl) as Hrow.
    case_decide; [by right|by left].
  - rewrite last_lookup in Hlast. exists (pred (length mil), last_l).
    split; [by apply elem_of_py_enumerate|].
    pose proof (post_row_without_majority _ last_l last_l Hnone Hlast) as Hrow.
    by rewrite decide_True in Hrow.
Qed.

End Oracle.


Lemma get_post_needs_majority_class_witness :
  result (get_post Sample.X3 Sample.y_single Sample.online_model) = inl IndexError.
Proof.
  apply (get_post_needs_majority_class Sample.online_model Sample.X3 Sample.y_single
           [5; 10; 20] [1 # 3; 2 # 3]).
  - vm_compute. reflexivity.
  - discriminate.
  - reflexivity.
  - intros X'. simpl. apply length_map.
  - vm_compute. reflexivity.
  - vm_compute. reflexivity.
Defined.

(** *** An ensemble without checkpoints *)




End OracleFacts.
